(** * journal-rankings: the SCImago retrieval logic of
      [journal_ranking.py] (command-line tool) and [ranking_app.py]
      (interactive form), embedded and verified.

    The two scripts scrape HTML with [requests] and [BeautifulSoup].  Those
    libraries are not part of the repository: a fetched and parsed page is
    represented here by the answers it gives to the queries the scripts make
    ([find_all], [find], [get_text], attribute lookup), and a fetch by its
    outcome.  Everything the scripts compute from those answers (regular
    expression searches, integer parsing, the candidate loop, the category
    dictionary, the pagination loop, the exception handlers) is written out.

    Text is [string] (a sequence of 8-bit characters); the case conversions
    act on the letters A-Z / a-z and [\d] is 0-9. *)

From Equations Require Import Equations.
From Stdlib Require Import List String Ascii ZArith Lia Bool Arith DecimalString.
From Stdlib Require Import DecimalNat Permutation.
Import ListNotations.
Open Scope string_scope.

(** ** Python text primitives *)

Module Py.

Definition is_upper (c : ascii) : bool :=
  let n := nat_of_ascii c in (65 <=? n)%nat && (n <=? 90)%nat.

Definition is_lower (c : ascii) : bool :=
  let n := nat_of_ascii c in (97 <=? n)%nat && (n <=? 122)%nat.

Definition is_digit (c : ascii) : bool :=
  let n := nat_of_ascii c in (48 <=? n)%nat && (n <=? 57)%nat.

(** [str.isspace] on one character. *)
Definition is_space (c : ascii) : bool :=
  let n := nat_of_ascii c in
  ((9 <=? n)%nat && (n <=? 13)%nat) || ((28 <=? n)%nat && (n <=? 32)%nat).

Definition lower_char (c : ascii) : ascii :=
  if is_upper c then ascii_of_nat (nat_of_ascii c + 32) else c.

Definition upper_char (c : ascii) : ascii :=
  if is_lower c then ascii_of_nat (nat_of_ascii c - 32) else c.

(** [s.lower()] and [s.upper()] *)
Fixpoint lower (s : string) : string :=
  match s with
  | EmptyString => EmptyString
  | String c r => String (lower_char c) (lower r)
  end.

Fixpoint upper (s : string) : string :=
  match s with
  | EmptyString => EmptyString
  | String c r => String (upper_char c) (upper r)
  end.

(** [s.startswith(p)] *)
Fixpoint startswith (p s : string) : bool :=
  match p, s with
  | EmptyString, _ => true
  | String a p', String b s' => Ascii.eqb a b && startswith p' s'
  | String _ _, EmptyString => false
  end.

(** [sub in s] *)
Fixpoint contains (sub s : string) : bool :=
  startswith sub s ||
  match s with
  | EmptyString => false
  | String _ r => contains sub r
  end.

(** [s.replace(old, "")] for a non-empty [old]: occurrences are removed
    left to right, without overlap. [skip] counts the characters of the
    occurrence being removed that are still to be dropped. *)
Fixpoint remove_all_from (old : string) (skip : nat) (s : string) : string :=
  match s with
  | EmptyString => EmptyString
  | String c r =>
      match skip with
      | S k => remove_all_from old k r
      | O => if startswith old s
             then remove_all_from old (String.length old - 1) r
             else String c (remove_all_from old 0 r)
      end
  end.

Definition remove_all (old s : string) : string := remove_all_from old 0 s.

(** The longest run of digits at the start of [s], and what follows it. *)
Fixpoint span_digits (s : string) : string * string :=
  match s with
  | String c r =>
      if is_digit c
      then let (d, rest) := span_digits r in (String c d, rest)
      else (EmptyString, s)
  | EmptyString => (EmptyString, EmptyString)
  end.

Definition digit_val (c : ascii) : Z := Z.of_nat (nat_of_ascii c - 48).

(** [int(d)] for a string [d] of digits, most significant first. *)
Fixpoint int_of_digits_acc (acc : Z) (d : string) : Z :=
  match d with
  | EmptyString => acc
  | String c r => int_of_digits_acc (10 * acc + digit_val c) r
  end.

Definition int_of_digits (d : string) : Z := int_of_digits_acc 0 d.

(** [m = re.search(key + r"(\d+)", s)]: the leftmost position where [key]
    is followed by at least one digit; the result is [m.group(1)], the whole
    run of digits there, or [None] when there is no match. *)
Fixpoint re_search_digits (key s : string) : option string :=
  let here :=
    if startswith key s
    then match fst (span_digits (substring (String.length key)
                                           (String.length s) s)) with
         | EmptyString => None
         | d => Some d
         end
    else None in
  match here with
  | Some d => Some d
  | None =>
      match s with
      | EmptyString => None
      | String _ r => re_search_digits key r
      end
  end.

(** [s.strip()] *)
Fixpoint lstrip (s : string) : string :=
  match s with
  | String c r => if is_space c then lstrip r else s
  | EmptyString => EmptyString
  end.

Fixpoint rstrip (s : string) : string :=
  match s with
  | EmptyString => EmptyString
  | String c r =>
      match rstrip r with
      | EmptyString => if is_space c then EmptyString else String c EmptyString
      | r' => String c r'
      end
  end.

Definition strip (s : string) : string := rstrip (lstrip s).

(** The digits of a decimal literal, where single underscores may separate
    digits. [after_digit] tells whether the previous character was a digit. *)
Fixpoint literal_digits (after_digit : bool) (acc : Z) (s : string)
  : option Z :=
  match s with
  | EmptyString => if after_digit then Some acc else None
  | String c r =>
      if is_digit c then literal_digits true (10 * acc + digit_val c) r
      else if Ascii.eqb c "_" && after_digit then literal_digits false acc r
      else None
  end.

(** The whitespace that [int] skips at both ends of its argument: tab to
    carriage return, and the blank. *)
Definition is_int_space (c : ascii) : bool :=
  let n := nat_of_ascii c in
  ((9 <=? n)%nat && (n <=? 13)%nat) || (n =? 32)%nat.

Fixpoint int_lstrip (s : string) : string :=
  match s with
  | String c r => if is_int_space c then int_lstrip r else s
  | EmptyString => EmptyString
  end.

Fixpoint int_rstrip (s : string) : string :=
  match s with
  | EmptyString => EmptyString
  | String c r =>
      match int_rstrip r with
      | EmptyString =>
          if is_int_space c then EmptyString else String c EmptyString
      | r' => String c r'
      end
  end.

(** [int(s)] for a string [s]: surrounding whitespace is ignored, one sign
    is allowed, then a decimal literal; [None] stands for [ValueError].
    (The cap that recent interpreters put on the number of digits is left
    out.) *)
Definition int_of_str (s : string) : option Z :=
  match int_rstrip (int_lstrip s) with
  | String "-" r => option_map Z.opp (literal_digits false 0 r)
  | String "+" r => literal_digits false 0 r
  | t => literal_digits false 0 t
  end.

(** [str(n)] for a non-negative integer *)
Definition str_of_nat (n : nat) : string :=
  DecimalString.NilZero.string_of_uint (Nat.to_uint n).

(** [str(z)] for an integer *)
Definition str_of_int (z : Z) : string :=
  DecimalString.NilZero.string_of_int (Z.to_int z).

(** [a / b] on integers gives a float: Python rounds the exact quotient to
    the nearest double and raises [OverflowError] when that is beyond the
    largest finite double, that is when |a/b| >= 2^1024 - 2^970. *)
Definition true_div_overflows (a b : Z) : bool :=
  ((2 ^ 1024 - 2 ^ 970) * Z.abs b <=? Z.abs a)%Z.

End Py.


(** ** Exceptions

    A Python call either returns a value or raises.  [exn] lists the
    subclasses of [Exception] that the scripts can meet; a handler
    [except Exception] catches every one of them. *)

Inductive exn : Type :=
| KeyError | AttributeError | IndexError | ValueError | TypeError
| OverflowError | ZeroDivisionError
| RequestException (what : string).

Inductive outcome (A : Type) : Type :=
| Return (a : A)
| Raise (e : exn).
Arguments Return {A} a.
Arguments Raise {A} e.

Definition bind {A B} (c : outcome A) (k : A -> outcome B) : outcome B :=
  match c with
  | Return a => k a
  | Raise e => Raise e
  end.

Notation "x <- c ;; k" := (bind c (fun x => k))
  (at level 61, c at next level, right associativity).
Notation "' p <- c ;; k" := (bind c (fun x => let 'p := x in k))
  (at level 61, p pattern, c at next level, right associativity).

(** [try: body  except Exception as e: handler] *)
Definition try_except {A} (body : outcome A) (handler : exn -> outcome A)
  : outcome A :=
  match body with
  | Return a => Return a
  | Raise e => handler e
  end.

(** ** Parsed pages, as seen through the queries the scripts make *)

(** An [<a>] element: [link['href']] (absent when there is no such
    attribute) and [link.get_text(strip=True)]. *)
Record anchor : Type := {
  href : option string;
  text : string
}.

(** An [<a>] element of the search page: its [href] and the text of the
    first [<span class="jrnlname">] below it, when there is one. *)
Record result_link : Type := {
  link_href : option string;
  jrnlname : option string
}.

(** The search page: for every [<div class="search_results">], in document
    order, the [<a>] elements below it. *)
Record search_page : Type := {
  search_results : list (list result_link)
}.

(** A journal's profile page: all its [<a>] elements. *)
Record profile_page : Type := {
  profile_links : list anchor
}.

(** A [<tr>] of a listing page: the text of its first
    [<a title="view journal details">], the texts of its [<td>] cells, and
    the class names carried by the elements below the row. *)
Record table_row : Type := {
  title_tag : option string;
  cols : list string;
  classes : list string
}.

(** A ranking-listing page: its [<a>] elements, its [<tr>] elements and the
    text of its [<title>]. *)
Record listing_page : Type := {
  links : list anchor;
  table_rows : list table_row;
  page_title : option string
}.

(** What [requests.get] returns, with [BeautifulSoup(response.content,
    "html.parser")] already applied to the body. *)
Record response (P : Type) : Type := {
  status_code : Z;
  soup : P
}.
Arguments status_code {P} r.
Arguments soup {P} r.

(** The site: the outcome of each request the scripts can issue. The search
    is keyed by the [q] parameter, the other two by the URL. *)
Record web : Type := {
  get_search : string -> outcome (response search_page);
  get_profile : string -> outcome (response profile_page);
  get_listing : string -> outcome (response listing_page)
}.

(** [first_result['href']] *)
Definition getitem_href (a : result_link) : outcome string :=
  match link_href a with
  | Some h => Return h
  | None => Raise KeyError
  end.

(** [first_result.find("span", class_="jrnlname").get_text(strip=True)] *)
Definition jrnlname_text (a : result_link) : outcome string :=
  match jrnlname a with
  | Some t => Return t
  | None => Raise AttributeError
  end.

(** [not journal_link] *)
Definition falsy (s : option string) : bool :=
  match s with
  | None => true
  | Some EmptyString => true
  | Some _ => false
  end.

(** [soup.find_all("a", href=lambda href: href and
    "journalrank.php?category=" in href)], each element given by its
    [href] and its text. *)
Fixpoint find_category_links (l : list anchor) : list (string * string) :=
  match l with
  | [] => []
  | a :: rest =>
      match href a with
      | Some h =>
          if negb (falsy (Some h)) && Py.contains "journalrank.php?category=" h
          then (h, text a) :: find_category_links rest
          else find_category_links rest
      | None => find_category_links rest
      end
  end.

(** [soup.find_all("a", href=True)], each element given by its [href]. *)
Fixpoint find_links_with_href (l : list anchor) : list string :=
  match l with
  | [] => []
  | a :: rest =>
      match href a with
      | Some h => h :: find_links_with_href rest
      | None => find_links_with_href rest
      end
  end.

(** A [dict] with string keys, in insertion order. *)
Definition dict := list (string * string).

Fixpoint dict_mem (k : string) (d : dict) : bool :=
  match d with
  | [] => false
  | (k', _) :: rest => String.eqb k k' || dict_mem k rest
  end.

(** [d[k] = v] for a key that is not in [d] yet *)
Definition dict_add (k v : string) (d : dict) : dict :=
  (d ++ [(k, v)])%list.

(** [{"name": ..., "id": ...}] *)
Record category : Type := {
  name : string;
  id : string
}.

(** The category dictionary of [get_journal_categories], the same text in
    both scripts:
<<
    category_map = {}
    for link in cat_links:
        cat_name = link.get_text(strip=True)
        match = re.search(r"category=(\d+)", link['href'])
        cat_id = match.group(1) if match else "Unknown"
        if cat_id not in category_map:
            category_map[cat_id] = cat_name
>> *)
Definition cat_id_of (h : string) : string :=
  match Py.re_search_digits "category=" h with
  | Some d => d
  | None => "Unknown"
  end.

Fixpoint fill_category_map (cat_links : list (string * string))
    (category_map : dict) : dict :=
  match cat_links with
  | [] => category_map
  | (h, cat_name) :: rest =>
      let cat_id := cat_id_of h in
      if dict_mem cat_id category_map
      then fill_category_map rest category_map
      else fill_category_map rest (dict_add cat_id cat_name category_map)
  end.

(** [for cat_id, cat_name in category_map.items():
       categories_data.append({"name": cat_name, "id": cat_id})] *)
Definition categories_of (category_map : dict) : list category :=
  map (fun kv => {| name := snd kv; id := fst kv |}) category_map.

(** [get_total_journals], the same text in both scripts: one pass over the
    links keeps the largest value of the parameter [key]. *)
Fixpoint max_param (key : string) (all_links : list string) (current : Z)
  : Z :=
  match all_links with
  | [] => current
  | h :: rest =>
      match Py.re_search_digits key h with
      | Some d =>
          let val := Py.int_of_digits d in
          if (current <? val)%Z then max_param key rest val
          else max_param key rest current
      | None => max_param key rest current
      end
  end.

Definition get_total_journals (soup : listing_page) : option Z :=
  let all_links := find_links_with_href (links soup) in
  let max_total_size := max_param "total_size=" all_links 0 in
  if (0 <? max_total_size)%Z then Some max_total_size
  else
    let max_page := max_param "page=" all_links 0 in
    if (0 <? max_page)%Z then Some (max_page * 50)%Z
    else None.

(** The quartile of a matched row, the same text in both scripts:
<<
    quartile = "N/A"
    for q_class in ['q1', 'q2', 'q3', 'q4']:
        if row.find(class_=q_class):
            quartile = q_class.upper()
            break
>> *)
Definition row_find_class (row : table_row) (q_class : string) : bool :=
  existsb (String.eqb q_class) (classes row).

Fixpoint quartile_loop (row : table_row) (q_classes : list string)
    (quartile : string) : string :=
  match q_classes with
  | [] => quartile
  | q_class :: rest =>
      if row_find_class row q_class then Py.upper q_class
      else quartile_loop row rest quartile
  end.

Definition quartile_of (row : table_row) : string :=
  quartile_loop row ["q1"; "q2"; "q3"; "q4"] "N/A".

(** [f"{base_url}?category={category_id}&page={page}{year_param}"] with
    [year_param = f"&year={year}" if year else ""] *)
Definition listing_url (category_id : string) (page : nat)
    (year : option string) : string :=
  let year_param :=
    match year with
    | Some (String c r) => "&year=" ++ String c r
    | _ => ""
    end in
  "https://www.scimagojr.com/journalrank.php" ++ "?category=" ++ category_id
    ++ "&page=" ++ Py.str_of_nat page ++ year_param.

Arguments listing_url : simpl never.

(** [cols[0].get_text(strip=True)] *)
Definition first_col (row : table_row) : outcome string :=
  match cols row with
  | c :: _ => Return c
  | [] => Raise IndexError
  end.

(** The pages still allowed when [page] is about to be requested: the loop
    leaves when [page > 100]. *)
Definition pages_left (page : nat) : nat := 101 - page.
Arguments pages_left : simpl never.

(** How one pass through the body of [while True] ends. *)
Inductive control (R : Type) : Type :=
| ReturnValue (r : R)
| Break
| NextIteration.
Arguments ReturnValue {R} r.
Arguments Break {R}.
Arguments NextIteration {R}.

(** ** journal_ranking.py, the command-line tool *)

Module journal_ranking.

(** [{"journal": real_title, "categories": categories_data,
     "url": journal_link}] *)
Record profile : Type := {
  journal : option string;
  categories : list category;
  url : string
}.

(** Lines 31-42: the first link of the first results container.
<<
    journal_link = None
    real_title = None
    if search_results:
        first_result = search_results[0].find("a")
        if first_result:
            journal_link = first_result['href']
            real_title = first_result.find("span", class_="jrnlname")
                                     .get_text(strip=True)
>> *)
Definition select_candidate (soup : search_page)
  : outcome (option string * option string) :=
  match search_results soup with
  | [] => Return (None, None)
  | results0 :: _ =>
      match results0 with
      | [] => Return (None, None)
      | first_result :: _ =>
          journal_link <- getitem_href first_result ;;
          real_title <- jrnlname_text first_result ;;
          Return (Some journal_link, Some real_title)
      end
  end.

(** The body of the [try] of [get_journal_categories]. *)
Definition get_journal_categories_body (w : web) (journal_name : string)
  : outcome (option profile) :=
  resp <- get_search w journal_name ;;
  ' (journal_link, real_title) <- select_candidate (soup resp) ;;
  if falsy journal_link then Return None
  else
    let journal_link := match journal_link with Some l => l | None => "" end in
    let journal_link :=
      if Py.startswith "http" journal_link then journal_link
      else "https://www.scimagojr.com/" ++ journal_link in
    profile_resp <- get_profile w journal_link ;;
    let cat_links := find_category_links (profile_links (soup profile_resp)) in
    let category_map := fill_category_map cat_links [] in
    Return (Some {| journal := real_title;
                    categories := categories_of category_map;
                    url := journal_link |}).

Definition get_journal_categories (w : web) (journal_name : string)
  : outcome (option profile) :=
  try_except (get_journal_categories_body w journal_name)
             (fun _ => Return None).

(** The dict returned by [get_scimago_ranking] on a match. *)
Record ranking : Type := {
  Journal : string;
  Rank : string;
  Number_journals : option Z;
  Quartile : string;
  Category_ID : string;
  Page_Found : nat
}.

(** Lines 187-214: [for row in table_rows], leaving with the dict on the
    first match; [None] when the loop runs to its end. *)
Fixpoint scan_rows (journal_name category_id : string) (page : nat)
    (number_journals : option Z) (rows : list table_row)
  : outcome (option ranking) :=
  match rows with
  | [] => Return None
  | row :: rest =>
      match title_tag row with
      | Some curr_journal_title =>
          if Py.contains (Py.lower journal_name) (Py.lower curr_journal_title)
          then
            rank <- first_col row ;;
            let quartile := quartile_of row in
            Return (Some {| Journal := curr_journal_title;
                            Rank := rank;
                            Number_journals := number_journals;
                            Quartile := quartile;
                            Category_ID := category_id;
                            Page_Found := page |})
          else scan_rows journal_name category_id page number_journals rest
      | None => scan_rows journal_name category_id page number_journals rest
      end
  end.

(** Lines 169-214: the body of the [try] inside [while True], up to the
    end of the scan of the rows. What follows the scan in the source, the
    look-up of the pagination block whose [if] has the body [pass], and
    [time.sleep(1)], changes neither the result nor the requests.
    [category_id] is given by the text it contributes to the URL. *)
Definition try_body (w : web) (journal_name category_id : string)
    (year : option string) (page : nat) : outcome (control ranking) :=
  response <- get_listing w (listing_url category_id page year) ;;
  if negb (status_code response =? 200)%Z then Return Break
  else
    let soup := soup response in
    let number_journals := get_total_journals soup in
    let table_rows := table_rows soup in
    if (List.length table_rows <=? 1)%nat then Return Break
    else
      found <- scan_rows journal_name category_id page number_journals
                         table_rows ;;
      match found with
      | Some r => Return (ReturnValue r)
      | None => Return NextIteration
      end.

(** Lines 162-235: [while True] from a given page number. The result pairs
    the URLs requested, in order, with what the function hands back:
    [except Exception: break] turns every exception of the body into a
    [break], after [page += 1] the loop breaks when [page > 100], and
    [return None] follows the loop. *)
Equations? pagination (w : web) (journal_name category_id : string)
    (year : option string) (page : nat)
  : list string * outcome (option ranking) by wf (pages_left page) lt :=
  pagination w journal_name category_id year page
    with try_except (try_body w journal_name category_id year page)
                    (fun _ => Return Break) => {
    | Return (ReturnValue r) =>
        ([listing_url category_id page year], Return (Some r))
    | Return Break =>
        ([listing_url category_id page year], Return None)
    | Raise e =>
        ([listing_url category_id page year], Raise e)
    | Return NextIteration with le_lt_dec (page + 1) 100 => {
        | right _ =>
            ([listing_url category_id page year], Return None)
        | left _ =>
            let rest := pagination w journal_name category_id year (page + 1) in
            (listing_url category_id page year :: fst rest, snd rest) } }.
Proof. unfold pages_left. lia. Qed.

Definition get_scimago_ranking_run (w : web) (journal_name category_id : string)
    (year : option string) : list string * outcome (option ranking) :=
  pagination w journal_name category_id year 1.

Definition get_scimago_ranking (w : web) (journal_name category_id : string)
    (year : option string) : outcome (option ranking) :=
  snd (get_scimago_ranking_run w journal_name category_id year).

(** Lines 262-269 of [__main__]: what is printed for a result. The
    percentile line divides by [result['Number journals']]. *)
Inductive printed : Type :=
| NotFoundMessage
| ResultBlock (journal rank : string) (number_journals : Z)
              (percentile : Z * Z) (quartile : string).

Definition main_report (result : option ranking) : outcome printed :=
  match result with
  | Some result =>
      rank <- match Py.int_of_str (Rank result) with
              | Some n => Return n
              | None => Raise ValueError
              end ;;
      total <- match Number_journals result with
               | Some t => Return t
               | None => Raise TypeError
               end ;;
      if Py.true_div_overflows (100 * rank) total then Raise OverflowError
      else Return (ResultBlock (Journal result) (Rank result) total
                               (100 * rank, total)%Z (Quartile result))
  | None => Return NotFoundMessage
  end.

End journal_ranking.

(** ** ranking_app.py, the interactive form *)

Module ranking_app.

(** [real_title, {"Category": names, "ids": idies}] *)
Record profile : Type := {
  real_title : option string;
  Category : list string;
  ids : list string
}.

(** Lines 44-48: the loop over the links of the first results container.
<<
    for result in search_results:
        journal_link = result['href']
        real_title = result.find("span", class_="jrnlname")
                           .get_text(strip=True)
        if real_title.lower() == journal_name.lower():
            break
>> *)
Fixpoint candidate_loop (journal_name : string) (results : list result_link)
    (journal_link real_title : option string)
  : outcome (option string * option string) :=
  match results with
  | [] => Return (journal_link, real_title)
  | result :: rest =>
      journal_link <- getitem_href result ;;
      real_title <- jrnlname_text result ;;
      if String.eqb (Py.lower real_title) (Py.lower journal_name)
      then Return (Some journal_link, Some real_title)
      else candidate_loop journal_name rest (Some journal_link)
                          (Some real_title)
  end.

(** Lines 35-48. [search_results[0]] raises [IndexError] when the page has
    no results container. *)
Definition select_candidate (journal_name : string) (soup : search_page)
  : outcome (option string * option string) :=
  search_results <- match search_results soup with
                    | results0 :: _ => Return results0
                    | [] => Raise IndexError
                    end ;;
  candidate_loop journal_name search_results None None.

(** The body of the [try] of [get_journal_categories]. *)
Definition get_journal_categories_body (w : web) (journal_name : string)
  : outcome (option profile) :=
  resp <- get_search w journal_name ;;
  ' (journal_link, real_title) <- select_candidate journal_name (soup resp) ;;
  if falsy journal_link then Return None
  else
    let journal_link := match journal_link with Some l => l | None => "" end in
    let journal_link :=
      if Py.startswith "http" journal_link then journal_link
      else "https://www.scimagojr.com/" ++ journal_link in
    profile_resp <- get_profile w journal_link ;;
    let cat_links := find_category_links (profile_links (soup profile_resp)) in
    let category_map := fill_category_map cat_links [] in
    let categories_data := categories_of category_map in
    Return (Some {| real_title := real_title;
                    Category := map name categories_data;
                    ids := map id categories_data |}).

Definition get_journal_categories (w : web) (journal_name : string)
  : outcome (option profile) :=
  try_except (get_journal_categories_body w journal_name)
             (fun _ => Return None).

(** [get_category_name]: the page title without the phrase
    ['Journal Rankings on']. *)
Definition get_category_name (soup : listing_page) : string :=
  let page_title := match page_title soup with Some t => t | None => "" end in
  Py.remove_all "Journal Rankings on" page_title.

(** The value under ["Year"]: the argument as it came, or
    [datetime.now().year] when the argument was the empty string. *)
Inductive year_value : Type :=
| YearGiven (year : option string)
| YearNow (y : Z).

(** The value under ["Percentile"]: the float nearest to
    [dividend / divisor], shown with two decimals and a percent sign. *)
Record percent : Type := {
  dividend : Z;
  divisor : Z
}.

(** The dict returned by [get_scimago_ranking] on a match. *)
Record ranking : Type := {
  Journal : string;
  Category_name : list string;
  Category_Rank : string;
  Percentile : percent;
  Quartile : string;
  Year : year_value
}.

(** [f'{number_journals}'] *)
Definition str_of_total (number_journals : option Z) : string :=
  match number_journals with
  | Some n => Py.str_of_int n
  | None => "None"
  end.

(** [f'{100*int(rank)/number_journals:.2f}%'], lines 221: [int] raises
    [ValueError] on text that is not an integer, the division raises
    [TypeError] on [None] and [OverflowError] beyond the floats. *)
Definition percentile_of (rank : string) (number_journals : option Z)
  : outcome percent :=
  n <- match Py.int_of_str rank with
       | Some n => Return n
       | None => Raise ValueError
       end ;;
  total <- match number_journals with
           | Some t => Return t
           | None => Raise TypeError
           end ;;
  if Py.true_div_overflows (100 * n) total then Raise OverflowError
  else Return {| dividend := 100 * n; divisor := total |}.

(** Lines 193-224: [for row in table_rows]. *)
Fixpoint scan_rows (now_year : Z) (journal_name : string)
    (year : option string) (number_journals : option Z)
    (category_name : string) (rows : list table_row)
  : outcome (option ranking) :=
  match rows with
  | [] => Return None
  | row :: rest =>
      match title_tag row with
      | Some curr_journal_title =>
          if Py.contains (Py.lower journal_name) (Py.lower curr_journal_title)
          then
            rank <- first_col row ;;
            let quartile := quartile_of row in
            let year := match year with
                        | Some EmptyString => YearNow now_year
                        | _ => YearGiven year
                        end in
            percentile <- percentile_of rank number_journals ;;
            Return (Some {| Journal := curr_journal_title;
                            Category_name := [category_name];
                            Category_Rank :=
                              "#" ++ rank ++ " of "
                                  ++ str_of_total number_journals;
                            Percentile := percentile;
                            Quartile := quartile;
                            Year := year |})
          else scan_rows now_year journal_name year number_journals
                         category_name rest
      | None => scan_rows now_year journal_name year number_journals
                          category_name rest
      end
  end.

(** Lines 172-224: the body of the [try] inside [while True], up to the
    end of the scan of the rows. *)
Definition try_body (now_year : Z) (w : web) (journal_name category_id : string)
    (year : option string) (page : nat) : outcome (control ranking) :=
  response <- get_listing w (listing_url category_id page year) ;;
  if negb (status_code response =? 200)%Z then Return Break
  else
    let soup := soup response in
    let number_journals := get_total_journals soup in
    let table_rows := table_rows soup in
    let category_name := get_category_name soup in
    if (List.length table_rows <=? 1)%nat then Return Break
    else
      found <- scan_rows now_year journal_name year number_journals
                         category_name table_rows ;;
      match found with
      | Some r => Return (ReturnValue r)
      | None => Return NextIteration
      end.

(** Lines 165-245: [while True] from a given page number, as in the
    command-line tool. *)
Equations? pagination (now_year : Z) (w : web)
    (journal_name category_id : string) (year : option string) (page : nat)
  : list string * outcome (option ranking) by wf (pages_left page) lt :=
  pagination now_year w journal_name category_id year page
    with try_except (try_body now_year w journal_name category_id year page)
                    (fun _ => Return Break) => {
    | Return (ReturnValue r) =>
        ([listing_url category_id page year], Return (Some r))
    | Return Break =>
        ([listing_url category_id page year], Return None)
    | Raise e =>
        ([listing_url category_id page year], Raise e)
    | Return NextIteration with le_lt_dec (page + 1) 100 => {
        | right _ =>
            ([listing_url category_id page year], Return None)
        | left _ =>
            let rest :=
              pagination now_year w journal_name category_id year (page + 1) in
            (listing_url category_id page year :: fst rest, snd rest) } }.
Proof. unfold pages_left. lia. Qed.

Definition get_scimago_ranking_run (now_year : Z) (w : web)
    (journal_name category_id : string) (year : option string)
  : list string * outcome (option ranking) :=
  pagination now_year w journal_name category_id year 1.

Definition get_scimago_ranking (now_year : Z) (w : web)
    (journal_name category_id : string) (year : option string)
  : outcome (option ranking) :=
  snd (get_scimago_ranking_run now_year w journal_name category_id year).

End ranking_app.

(** ** Vocabulary of the statements *)

(** The integers that [get_total_journals] reads for the parameter [key]:
    one per link whose [href] matches, the value of the leftmost match. *)
Fixpoint param_values (key : string) (all_links : list string) : list Z :=
  match all_links with
  | [] => []
  | h :: rest =>
      match Py.re_search_digits key h with
      | Some d => Py.int_of_digits d :: param_values key rest
      | None => param_values key rest
      end
  end.

Definition total_sizes (soup : listing_page) : list Z :=
  param_values "total_size=" (find_links_with_href (links soup)).

Definition page_numbers (soup : listing_page) : list Z :=
  param_values "page=" (find_links_with_href (links soup)).

Definition maximum (l : list Z) : Z := fold_right Z.max 0%Z l.

(** [m] is the largest element of [l]. *)
Definition is_max (m : Z) (l : list Z) : Prop :=
  In m l /\ forall v, In v l -> (v <= m)%Z.

(** The row's title contains the query, case-insensitively. *)
Definition matches (journal_name : string) (row : table_row) : bool :=
  match title_tag row with
  | Some t => Py.contains (Py.lower journal_name) (Py.lower t)
  | None => false
  end.

(** The candidate's display title equals the query, case-insensitively. *)
Definition title_equals (journal_name : string) (a : result_link) : bool :=
  match jrnlname a with
  | Some t => String.eqb (Py.lower t) (Py.lower journal_name)
  | None => false
  end.

(** The candidate carries a link target and a display title. *)
Definition well_formed (a : result_link) : Prop :=
  link_href a <> None /\ jrnlname a <> None.

(** Page [q] of the listing answers 200 with the rows [rows], more than a
    header. *)
Definition data_page (w : web) (category_id : string) (year : option string)
    (q : nat) (listing : listing_page) : Prop :=
  exists resp,
    get_listing w (listing_url category_id q year) = Return resp /\
    status_code resp = 200%Z /\
    listing = soup resp /\
    (1 < List.length (table_rows listing))%nat.

(** Page [q] is a data page none of whose rows matches the query. *)
Definition unmatched_page (w : web) (journal_name category_id : string)
    (year : option string) (q : nat) : Prop :=
  exists listing,
    data_page w category_id year q listing /\
    Forall (fun row => matches journal_name row = false)
           (table_rows listing).

(** Page [q] answers 200 with at most one row. *)
Definition empty_page (w : web) (category_id : string) (year : option string)
    (q : nat) : Prop :=
  exists resp,
    get_listing w (listing_url category_id q year) = Return resp /\
    status_code resp = 200%Z /\
    (List.length (table_rows (soup resp)) <= 1)%nat.

(** The URLs of pages [first], [first + 1], ..., [n] of them. *)
Definition urls (category_id : string) (year : option string)
    (first n : nat) : list string :=
  map (fun p => listing_url category_id p year) (seq first n).

(** The ids of the category links of a profile page, in document order. *)
Definition link_ids (cat_links : list (string * string)) : list string :=
  map (fun l => cat_id_of (fst l)) cat_links.

(** The distinct elements of [l], each at the place of its first
    occurrence. *)
Fixpoint first_occurrences (seen l : list string) : list string :=
  match l with
  | [] => []
  | x :: r =>
      if existsb (String.eqb x) seen then first_occurrences seen r
      else x :: first_occurrences (seen ++ [x]) r
  end.

(** The text of the first link whose id is [i]. *)
Definition first_name (i : string) (cat_links : list (string * string))
  : option string :=
  option_map snd
    (find (fun l => String.eqb i (cat_id_of (fst l))) cat_links).

(** [out] lists the categories of [cat_links] without duplicates: one entry
    per distinct id, in the order in which the ids are first met, each with
    the text of the first link that carries its id. *)
Definition deduplicated (cat_links : list (string * string))
    (out : list category) : Prop :=
  map id out = first_occurrences [] (link_ids cat_links) /\
  NoDup (map id out) /\
  (forall i, In i (map id out) <-> In i (link_ids cat_links)) /\
  (forall c, In c out -> first_name (id c) cat_links = Some (name c)) /\
  List.length out = List.length (nodup string_dec (link_ids cat_links)).

(** [row] is the first row of [rows] that matches the query. *)
Definition first_match (journal_name : string) (rows : list table_row)
    (row : table_row) : Prop :=
  exists pre post,
    rows = (pre ++ row :: post)%list /\
    Forall (fun x => matches journal_name x = false) pre /\
    matches journal_name row = true.

(** A record with this title, rank text, total and quartile is read off the
    first matching row in page-then-row order: the row is the first match
    of page [p], and no row of the pages before [p] matches. *)
Definition from_first_match (w : web) (journal_name category_id : string)
    (year : option string) (title rank : string) (total : option Z)
    (quartile : string) : Prop :=
  exists p listing row,
    (1 <= p <= 100)%nat /\
    (forall q, (1 <= q < p)%nat ->
       unmatched_page w journal_name category_id year q) /\
    data_page w category_id year p listing /\
    first_match journal_name (table_rows listing) row /\
    title_tag row = Some title /\
    Py.contains (Py.lower journal_name) (Py.lower title) = true /\
    first_col row = Return rank /\
    total = get_total_journals listing /\
    quartile = quartile_of row.

(** What one pass hands to the function when the loop ends with it. *)
Definition result_of (c : control journal_ranking.ranking)
  : option journal_ranking.ranking :=
  match c with
  | ReturnValue r => Some r
  | _ => None
  end.

(** The category list both scripts compute from a profile page. *)
Definition categories_of_page (p : profile_page) : list category :=
  categories_of (fill_category_map (find_category_links (profile_links p)) []).

(** What the interactive form makes of a row that the command-line tool
    returns: the same title, rank text, total and quartile, with the
    percentile computed inside the loop. [None] when that computation
    raises. *)
Definition form_of_tool (now_year : Z) (w : web) (category_id : string)
    (year : option string) (r : journal_ranking.ranking)
  : option ranking_app.ranking :=
  match get_listing w (listing_url category_id
                                   (journal_ranking.Page_Found r) year),
        ranking_app.percentile_of (journal_ranking.Rank r)
                                  (journal_ranking.Number_journals r) with
  | Return resp, Return pc =>
      Some {| ranking_app.Journal := journal_ranking.Journal r;
              ranking_app.Category_name :=
                [ranking_app.get_category_name (soup resp)];
              ranking_app.Category_Rank :=
                "#" ++ journal_ranking.Rank r ++ " of "
                    ++ ranking_app.str_of_total
                         (journal_ranking.Number_journals r);
              ranking_app.Percentile := pc;
              ranking_app.Quartile := journal_ranking.Quartile r;
              ranking_app.Year :=
                match year with
                | Some EmptyString => ranking_app.YearNow now_year
                | _ => ranking_app.YearGiven year
                end |}
  | _, _ => None
  end.

(** ** Sample pages *)

Module Sample.

Definition link (h : string) : anchor := {| href := Some h; text := "" |}.

Definition header : table_row :=
  {| title_tag := None; cols := []; classes := [] |}.

Definition row (t rank : string) (cl : list string) : table_row :=
  {| title_tag := Some t; cols := [rank; t]; classes := cl |}.

(** Links carrying [total_size=1500] and [page=40]. *)
Definition page_1500_40 : listing_page :=
  {| links := [link "journalrank.php?category=1000&page=2&total_size=1500";
               {| href := None; text := "top" |};
               link "journalrank.php?category=1000&page=40"];
     table_rows := [header; row "Science" "1" ["q1"]];
     page_title := Some "Journal Rankings on Multidisciplinary" |}.

(** A link carrying [total_size=0] next to one carrying [page=40]. *)
Definition page_0_40 : listing_page :=
  {| links := [link "journalrank.php?category=1000&total_size=0";
               link "journalrank.php?category=1000&page=40"];
     table_rows := [header];
     page_title := None |}.

Definition listing (rows : list table_row) : listing_page :=
  {| links := [link "journalrank.php?category=1000&page=3&total_size=120"];
     table_rows := rows;
     page_title := Some "Journal Rankings on Physics" |}.

(** The same rows on a page without any pagination link. *)
Definition listing_without_total (rows : list table_row) : listing_page :=
  {| links := [link "journalsearch.php?q=12&tip=sid"];
     table_rows := rows;
     page_title := Some "Journal Rankings on Physics" |}.

Definition q2_q3_row : table_row := row "Nature Physics" "2" ["q2"; "q3"].

(** Three candidates; the second one is titled exactly "Nature". *)
Definition nature_results : search_page :=
  {| search_results :=
       [[ {| link_href := Some "journalsearch.php?q=1&tip=sid";
             jrnlname := Some "Nature Physics" |};
          {| link_href := Some "journalsearch.php?q=2&tip=sid";
             jrnlname := Some "Nature" |};
          {| link_href := Some "journalsearch.php?q=3&tip=sid";
             jrnlname := Some "Nature Materials" |} ]] |}.

(** A profile page where category 3100 is linked twice, under two texts. *)
Definition nature_profile : profile_page :=
  {| profile_links :=
       [ {| href := Some "journalrank.php?category=1000";
            text := "Multidisciplinary" |};
         {| href := Some "index.php"; text := "Home" |};
         {| href := Some "journalrank.php?category=3100";
            text := "Physics and Astronomy" |};
         {| href := Some "journalrank.php?category=1000&year=2020";
            text := "Multidisciplinary (2020)" |};
         {| href := Some "journalrank.php?category=3100&area=3100";
            text := "Physics" |} ] |}.

Definition ok {P} (p : P) : outcome (response P) :=
  Return {| status_code := 200; soup := p |}.

(** Category 1000: three pages of data, then a page with a header only.
    Category 2000: a first page where the row titled "Nature" shows the
    rank "1,234" and the next row, "Nature Physics", the rank "2".
    Category 3000: a first page without pagination links. *)
Definition listing_of (u : string) : outcome (response listing_page) :=
  if String.eqb u (listing_url "1000" 1 None)
  then ok (listing [header; row "Science" "1" ["q1"]])
  else if String.eqb u (listing_url "1000" 2 None)
  then ok (listing [header; q2_q3_row])
  else if String.eqb u (listing_url "1000" 3 None)
  then ok (listing [header; row "Cell" "3" []])
  else if String.eqb u (listing_url "1000" 4 None)
  then ok (listing [header])
  else if String.eqb u (listing_url "2000" 1 None)
  then ok (listing [header; row "Nature" "1,234" ["q1"];
                    row "Nature Physics" "2" ["q1"]])
  else if String.eqb u (listing_url "3000" 1 None)
  then ok (listing_without_total [header; row "Nature" "5" ["q1"]])
  else Raise (RequestException "connection refused").

Definition site : web :=
  {| get_search := fun _ => ok nature_results;
     get_profile := fun _ => ok nature_profile;
     get_listing := listing_of |}.

(** A site that cannot be reached. *)
Definition offline : web :=
  {| get_search := fun _ => Raise (RequestException "timed out");
     get_profile := fun _ => Raise (RequestException "timed out");
     get_listing := fun _ => Raise (RequestException "timed out") |}.

End Sample.

(** ** The rest of journal_ranking.py *)

(** What follows a literal [lit] at the start of [s]. *)
Definition after_literal (lit s : string) : option string :=
  if Py.startswith lit s
  then Some (substring (String.length lit) (String.length s) s)
  else None.

(** What follows [\d\d] at the start of [s]. *)
Definition after_two_digits (s : string) : option string :=
  match s with
  | String a (String b r) =>
      if Py.is_digit a && Py.is_digit b then Some r else None
  | _ => None
  end.

(** A match of [1\s*-\s*\d\d\s*of\s*(\d+)] that starts at the start of
    [s], given by its group. Every [\s*] is followed by a character that is
    not a space, so it takes all the spaces there are. *)
Definition old_pattern_here (s : string) : option string :=
  match after_literal "1" s with
  | None => None
  | Some s1 =>
      match after_literal "-" (Py.lstrip s1) with
      | None => None
      | Some s2 =>
          match after_two_digits (Py.lstrip s2) with
          | None => None
          | Some s3 =>
              match after_literal "of" (Py.lstrip s3) with
              | None => None
              | Some s4 =>
                  match fst (Py.span_digits (Py.lstrip s4)) with
                  | EmptyString => None
                  | d => Some d
                  end
              end
          end
      end
  end.

(** [re.search(r"1\s*-\s*\d\d\s*of\s*(\d+)", body_text)]: the leftmost
    match. *)
Fixpoint old_pattern_search (s : string) : option string :=
  match old_pattern_here s with
  | Some d => Some d
  | None =>
      match s with
      | EmptyString => None
      | String _ r => old_pattern_search r
      end
  end.

(** [get_total_journal_old], lines 128-140, on [soup.get_text()]. *)
Definition get_total_journal_old (body_text : string) : option Z :=
  match old_pattern_search body_text with
  | Some d => Some (Py.int_of_digits d)
  | None => None
  end.





(** ** The rest of ranking_app.py: the page, lines 252-293 *)

(** The button pressed in the run of the script, if any. *)
Inductive button : Type :=
| GetCategories
| GetRankings.

(** What the run puts on the page, in order. *)
Inductive shown : Type :=
| Warning (message : string)
| ShowingCategoriesFor (journal : option string)
| CategoriesTable (Category ids : list string)
| RankingTable (r : ranking_app.ranking).

(** The variable [data]: [False], the dict of categories, or what
    [get_scimago_ranking] returned. *)
Inductive data_value : Type :=
| DataFalse
| DataCategories (Category ids : list string)
| DataRanking (r : option ranking_app.ranking).

(** [if data] *)
Definition data_truthy (data : data_value) : bool :=
  match data with
  | DataFalse => false
  | DataCategories _ _ => true
  | DataRanking (Some _) => true
  | DataRanking None => false
  end.

Definition show_data (data : data_value) : list shown :=
  match data with
  | DataCategories c i => [CategoriesTable c i]
  | DataRanking (Some r) => [RankingTable r]
  | _ => []
  end.

(** [if j_name] *)
Definition name_given (j_name : string) : bool :=
  match j_name with
  | EmptyString => false
  | _ => true
  end.

(** One run of the script. [journal, data = get_journal_categories(j_name)]
    raises [TypeError] when the function returns [None]. *)
Definition page_run (now_year : Z) (w : web) (j_name j_cate j_year : string)
    (pressed : option button) : outcome (list shown) :=
  let data := DataFalse in
  let cats := false in
  let rank := false in
  (* with col1 *)
  ' (cats, journal, data, out1) <-
    match pressed with
    | Some GetCategories =>
        if name_given j_name
        then
          r <- ranking_app.get_journal_categories w j_name ;;
          match r with
          | Some prof =>
              Return (true, ranking_app.real_title prof,
                      DataCategories (ranking_app.Category prof)
                                     (ranking_app.ids prof), [])
          | None => Raise TypeError
          end
        else Return (true, None, data,
                     [Warning "Please enter a journal name."])
    | _ => Return (cats, None, data, [])
    end ;;
  (* with col2 *)
  ' (rank, data, out2) <-
    match pressed with
    | Some GetRankings =>
        if name_given j_name
        then
          r <- ranking_app.get_scimago_ranking now_year w j_name j_cate
                 (Some j_year) ;;
          Return (true, DataRanking r, [])
        else Return (true, data, [Warning "Please enter a journal name."])
    | _ => Return (rank, data, [])
    end ;;
  let out3 :=
    if data_truthy data && cats
    then ShowingCategoriesFor journal :: show_data data
    else [] in
  let out4 :=
    if data_truthy data && rank then show_data data else [] in
  Return (out1 ++ out2 ++ out3 ++ out4)%list.

(** ** Vocabulary of the further statements *)

(** Two answers to a request that differ at most in the status code (and,
    for failed requests, in the exception). *)
Definition same_body {P : Type} (a b : outcome (response P)) : Prop :=
  match a, b with
  | Return x, Return y => soup x = soup y
  | Raise _, Raise _ => True
  | _, _ => False
  end.

(** The sample site, with the search answered under status 404 and the
    profile under status 500. *)
Definition site_with_error_status : web :=
  {| get_search := fun _ =>
       Return {| status_code := 404; soup := Sample.nature_results |};
     get_profile := fun _ =>
       Return {| status_code := 500; soup := Sample.nature_profile |};
     get_listing := Sample.listing_of |}.

(** Every character of [s] is a digit. *)
Fixpoint all_digits (s : string) : bool :=
  match s with
  | EmptyString => true
  | String c r => Py.is_digit c && all_digits r
  end.

(** Every character of [s] is a space. *)
Fixpoint all_spaces (s : string) : bool :=
  match s with
  | EmptyString => true
  | String c r => Py.is_space c && all_spaces r
  end.

(** [s] does not start with a digit. *)
Definition no_leading_digit (s : string) : Prop :=
  Py.span_digits s = (EmptyString, s).

(** * Properties *)

(** ** Text *)

Lemma maximum_nonneg l : (0 <= maximum l)%Z.
Proof.
  induction l as [|v l IH]; [reflexivity|].
  change (0 <= Z.max v (maximum l))%Z. lia.
Qed.

Lemma maximum_upper l v : In v l -> (v <= maximum l)%Z.
Proof.
  induction l as [|x l IH]; simpl; [tauto|].
  intros [->|H]; [lia|]. specialize (IH H). lia.
Qed.

Lemma maximum_of_is_max m l : is_max m l -> (0 <= m)%Z -> maximum l = m.
Proof.
  intros [Hin Hle] H0. apply Z.le_antisymm.
  - clear Hin. induction l as [|x l IH]; simpl; [lia|].
    assert (x <= m)%Z by (apply Hle; left; reflexivity).
    assert (maximum l <= m)%Z by (apply IH; intros; apply Hle; right; assumption).
    lia.
  - apply maximum_upper; assumption.
Qed.

Lemma maximum_all_nonpositive l :
  (forall v, In v l -> (v <= 0)%Z) -> maximum l = 0%Z.
Proof.
  induction l as [|x l IH]; simpl; intros H; [reflexivity|].
  rewrite IH by (intros; apply H; right; assumption).
  specialize (H x (or_introl eq_refl)). lia.
Qed.

(** ** The Total-Count Resolver *)

Lemma maximum_cons v l : maximum (v :: l) = Z.max v (maximum l).
Proof. reflexivity. Qed.

Lemma int_of_digits_acc_nonneg d acc :
  (0 <= acc)%Z -> (0 <= Py.int_of_digits_acc acc d)%Z.
Proof.
  revert acc. induction d as [|c d IH]; intros acc H;
    cbn [Py.int_of_digits_acc]; [assumption|].
  apply IH. pose proof (Zle_0_nat (nat_of_ascii c - 48)).
  unfold Py.digit_val. lia.
Qed.

Lemma int_of_digits_nonneg d : (0 <= Py.int_of_digits d)%Z.
Proof. apply int_of_digits_acc_nonneg. lia. Qed.

Lemma max_param_maximum key hs c :
  (0 <= c)%Z ->
  max_param key hs c = Z.max c (maximum (param_values key hs)).
Proof.
  revert c. induction hs as [|h hs IH]; intros c Hc;
    cbn [max_param param_values].
  - change (maximum []) with 0%Z. lia.
  - destruct (Py.re_search_digits key h) as [d|]; [|apply IH; assumption].
    rewrite maximum_cons. pose proof (int_of_digits_nonneg d).
    destruct (Z.ltb_spec c (Py.int_of_digits d)); rewrite IH; lia.
Qed.

Lemma get_total_journals_cases soup :
  get_total_journals soup =
  if (0 <? maximum (total_sizes soup))%Z then Some (maximum (total_sizes soup))
  else if (0 <? maximum (page_numbers soup))%Z
       then Some (maximum (page_numbers soup) * 50)%Z
       else None.
Proof.
  unfold get_total_journals, total_sizes, page_numbers.
  rewrite !max_param_maximum by lia.
  rewrite !Z.max_r by apply maximum_nonneg. reflexivity.
Qed.

Lemma get_total_journals_positive soup n :
  get_total_journals soup = Some n -> (0 < n)%Z.
Proof.
  rewrite get_total_journals_cases.
  destruct (Z.ltb_spec 0 (maximum (total_sizes soup))).
  - intros [= <-]. assumption.
  - destruct (Z.ltb_spec 0 (maximum (page_numbers soup))); [|discriminate].
    intros [= <-]. lia.
Qed.

(** C3, as amended. The resolver returns the largest [total_size=] value
    when that value is positive; failing that, 50 times the largest [page=]
    value when that one is positive; failing both, [None]. A page whose
    links carry [total_size=1500] and [page=40] gives 1500. *)
Theorem total_count_by_positive_maximum (soup : listing_page) :
  (forall m, is_max m (total_sizes soup) -> (0 < m)%Z ->
     get_total_journals soup = Some m) /\
  (forall m, (forall v, In v (total_sizes soup) -> (v <= 0)%Z) ->
     is_max m (page_numbers soup) -> (0 < m)%Z ->
     get_total_journals soup = Some (50 * m)%Z) /\
  ((forall v, In v (total_sizes soup) -> (v <= 0)%Z) ->
   (forall v, In v (page_numbers soup) -> (v <= 0)%Z) ->
     get_total_journals soup = None) /\
  get_total_journals Sample.page_1500_40 = Some 1500%Z.
Proof.
  repeat split.
  - intros m Hm Hpos. rewrite get_total_journals_cases.
    rewrite (maximum_of_is_max _ _ Hm) by lia.
    apply Z.ltb_lt in Hpos. rewrite Hpos. reflexivity.
  - intros m Hz Hm Hpos. rewrite get_total_journals_cases.
    rewrite (maximum_all_nonpositive _ Hz).
    change (0 <? 0)%Z with false. cbv iota.
    rewrite (maximum_of_is_max _ _ Hm) by lia.
    apply Z.ltb_lt in Hpos. rewrite Hpos. f_equal. lia.
  - intros Hz Hp. rewrite get_total_journals_cases.
    rewrite (maximum_all_nonpositive _ Hz), (maximum_all_nonpositive _ Hp).
    reflexivity.
Qed.

(** C3 as stated fails: here a [total_size=] parameter exists, its largest
    value is 0, and the resolver answers with the page estimate 2000. *)
Lemma total_size_zero_is_ignored :
  is_max 0%Z (total_sizes Sample.page_0_40) /\
  get_total_journals Sample.page_0_40 = Some 2000%Z.
Proof.
  split; [|reflexivity].
  split; [left; reflexivity|].
  intros v [<-|[]]. vm_compute. discriminate.
Qed.

(** The first three parts of the statement at the sample pages. *)
Lemma total_count_by_positive_maximum_witness :
  get_total_journals Sample.page_1500_40 = Some 1500%Z /\
  get_total_journals Sample.page_0_40 = Some (50 * 40)%Z /\
  get_total_journals (Sample.listing_without_total []) = None.
Proof.
  split; [|split].
  - destruct (total_count_by_positive_maximum Sample.page_1500_40)
      as (H & _). apply H.
    + split; [left; reflexivity|]. intros v [<-|[]]. vm_compute. discriminate.
    + reflexivity.
  - destruct (total_count_by_positive_maximum Sample.page_0_40)
      as (_ & H & _). apply H.
    + intros v [<-|[]]. vm_compute. discriminate.
    + split; [left; reflexivity|]. intros v [<-|[]]. vm_compute. discriminate.
    + reflexivity.
  - destruct (total_count_by_positive_maximum
                (Sample.listing_without_total [])) as (_ & _ & H & _).
    apply H.
    + intros v [].
    + intros v [].
Defined.

(** ** Quartile of a row *)

Lemma row_find_class_In row q :
  row_find_class row q = true <-> In q (classes row).
Proof.
  unfold row_find_class. rewrite existsb_exists. split.
  - intros (x & Hx & E). apply String.eqb_eq in E. subst. assumption.
  - intros H. exists q. split; [assumption|apply String.eqb_refl].
Qed.

Lemma row_find_class_not_In row q :
  row_find_class row q = false <-> ~ In q (classes row).
Proof.
  rewrite <- row_find_class_In. destruct (row_find_class row q); split;
    congruence.
Qed.

(** C7. The markers are tried in the order q1, q2, q3, q4 and the first one
    present on the row decides; without any of them the quartile is "N/A".
    A row marked q2 and q3 gets "Q2". *)
Theorem quartile_first_marker_wins (row : table_row) :
  (In "q1" (classes row) -> quartile_of row = "Q1") /\
  (~ In "q1" (classes row) -> In "q2" (classes row) ->
     quartile_of row = "Q2") /\
  (~ In "q1" (classes row) -> ~ In "q2" (classes row) ->
     In "q3" (classes row) -> quartile_of row = "Q3") /\
  (~ In "q1" (classes row) -> ~ In "q2" (classes row) ->
     ~ In "q3" (classes row) -> In "q4" (classes row) ->
     quartile_of row = "Q4") /\
  (~ In "q1" (classes row) -> ~ In "q2" (classes row) ->
     ~ In "q3" (classes row) -> ~ In "q4" (classes row) ->
     quartile_of row = "N/A") /\
  quartile_of Sample.q2_q3_row = "Q2".
Proof.
  unfold quartile_of. cbn [quartile_loop].
  repeat split; intros;
    repeat match goal with
    | H : In _ (classes row) |- _ => apply row_find_class_In in H; rewrite H
    | H : ~ In _ (classes row) |- _ =>
        apply row_find_class_not_In in H; rewrite H
    end; reflexivity.
Qed.

(** The statement at a row marked q3 and q2, in that order. *)
Lemma quartile_first_marker_wins_witness :
  quartile_of {| title_tag := Some "Nature Physics"; cols := ["2"];
                 classes := ["q3"; "q2"] |} = "Q2".
Proof.
  destruct (quartile_first_marker_wins
              {| title_tag := Some "Nature Physics"; cols := ["2"];
                 classes := ["q3"; "q2"] |}) as (_ & H & _).
  apply H; simpl.
  - intros [E|[E|[]]]; discriminate E.
  - right; left; reflexivity.
Defined.

(** ** The category dictionary *)

Lemma dict_mem_keys k d : dict_mem k d = existsb (String.eqb k) (map fst d).
Proof.
  induction d as [|[k' v] d IH]; simpl; [reflexivity|].
  rewrite IH. reflexivity.
Qed.

Lemma existsb_eqb_In x l : existsb (String.eqb x) l = true <-> In x l.
Proof.
  rewrite existsb_exists. split.
  - intros (y & Hy & E). apply String.eqb_eq in E. subst. assumption.
  - intros H. exists x. split; [assumption|apply String.eqb_refl].
Qed.

Lemma fill_category_map_keys cat_links acc :
  map fst (fill_category_map cat_links acc) =
  (map fst acc ++ first_occurrences (map fst acc) (link_ids cat_links))%list.
Proof.
  revert acc. induction cat_links as [|[h n] rest IH]; intros acc; simpl.
  - rewrite app_nil_r. reflexivity.
  - rewrite dict_mem_keys.
    destruct (existsb (String.eqb (cat_id_of h)) (map fst acc)).
    + apply IH.
    + rewrite IH. unfold dict_add. rewrite map_app. simpl.
      rewrite <- app_assoc. reflexivity.
Qed.

Lemma first_occurrences_In seen l x :
  In x (first_occurrences seen l) <-> In x l /\ ~ In x seen.
Proof.
  revert seen. induction l as [|y l IH]; intros seen; simpl; [tauto|].
  destruct (existsb (String.eqb y) seen) eqn:E.
  - apply existsb_eqb_In in E. rewrite IH. split.
    + tauto.
    + intros [[->|H] Hn]; tauto.
  - assert (Hy : ~ In y seen)
      by (rewrite <- existsb_eqb_In; congruence).
    simpl. rewrite IH, in_app_iff. simpl. split.
    + intros [->|[H Hn]]; tauto.
    + intros [[->|H] Hn]; [tauto|].
      destruct (string_dec y x); [tauto|]. right. tauto.
Qed.

Lemma first_occurrences_NoDup seen l : NoDup (first_occurrences seen l).
Proof.
  revert seen. induction l as [|y l IH]; intros seen; simpl; [constructor|].
  destruct (existsb (String.eqb y) seen); [apply IH|].
  constructor; [|apply IH].
  rewrite first_occurrences_In, in_app_iff. simpl. tauto.
Qed.

Lemma first_occurrences_length l :
  List.length (first_occurrences [] l) = List.length (nodup string_dec l).
Proof.
  apply Nat.le_antisymm; apply NoDup_incl_length;
    try apply first_occurrences_NoDup; try apply NoDup_nodup;
    intros x; rewrite first_occurrences_In, nodup_In; simpl; tauto.
Qed.

Lemma first_name_skip i h n rest :
  i <> cat_id_of h -> first_name i ((h, n) :: rest) = first_name i rest.
Proof.
  intros H. unfold first_name. simpl.
  apply String.eqb_neq in H. rewrite H. reflexivity.
Qed.

Lemma fill_category_map_names cat_links acc k v :
  In (k, v) (fill_category_map cat_links acc) ->
  In (k, v) acc \/
  (~ In k (map fst acc) /\ first_name k cat_links = Some v).
Proof.
  revert acc. induction cat_links as [|[h n] rest IH]; intros acc; simpl.
  - tauto.
  - rewrite dict_mem_keys.
    destruct (existsb (String.eqb (cat_id_of h)) (map fst acc)) eqn:E.
    + apply existsb_eqb_In in E. intros H.
      destruct (IH _ H) as [H1|[H1 H2]]; [tauto|]. right. split; [assumption|].
      rewrite first_name_skip; [assumption|]. congruence.
    + assert (Hn : ~ In (cat_id_of h) (map fst acc))
        by (rewrite <- existsb_eqb_In; congruence).
      intros H. destruct (IH _ H) as [H1|[H1 H2]].
      * unfold dict_add in H1. apply in_app_iff in H1.
        destruct H1 as [H1|[[= <- <-]|[]]]; [tauto|].
        right. split; [assumption|].
        unfold first_name. simpl. rewrite String.eqb_refl. reflexivity.
      * unfold dict_add in H1. rewrite map_app, in_app_iff in H1. simpl in H1.
        right. split; [tauto|].
        rewrite first_name_skip; [assumption|]. intros ->. tauto.
Qed.

Lemma categories_of_ids d : map id (categories_of d) = map fst d.
Proof. unfold categories_of. rewrite map_map. reflexivity. Qed.

Lemma fill_category_map_deduplicated cat_links :
  deduplicated cat_links (categories_of (fill_category_map cat_links [])).
Proof.
  unfold deduplicated.
  rewrite categories_of_ids, fill_category_map_keys. simpl.
  split; [reflexivity|].
  split; [apply first_occurrences_NoDup|].
  split; [intros i; rewrite first_occurrences_In; simpl; tauto|].
  split.
  - intros c Hc. unfold categories_of in Hc. apply in_map_iff in Hc.
    destruct Hc as ([k v] & <- & Hin). simpl.
    destruct (fill_category_map_names _ _ _ _ Hin) as [[]|[_ H]]. assumption.
  - unfold categories_of. rewrite length_map.
    rewrite <- (length_map fst), fill_category_map_keys. simpl.
    apply first_occurrences_length.
Qed.

(** ** The Category Resolver *)

Lemma tool_categories_inv w jn prof :
  journal_ranking.get_journal_categories w jn = Return (Some prof) ->
  exists resp presp,
    get_search w jn = Return resp /\
    get_profile w (journal_ranking.url prof) = Return presp /\
    journal_ranking.categories prof = categories_of_page (soup presp).
Proof.
  unfold journal_ranking.get_journal_categories,
    journal_ranking.get_journal_categories_body, try_except.
  intros H.
  destruct (get_search w jn) as [resp|e] eqn:Es; cbn [bind] in H;
    [|discriminate].
  destruct (journal_ranking.select_candidate (soup resp)) as [[jl rt]|e]
    eqn:Ec; cbn [bind] in H; [|discriminate].
  destruct (falsy jl); [discriminate|].
  match type of H with context [get_profile w ?u] =>
    destruct (get_profile w u) as [presp|e] eqn:Ep end;
    cbn [bind] in H; [|discriminate].
  injection H as <-. cbn [journal_ranking.url journal_ranking.categories].
  exists resp, presp. auto.
Qed.

Lemma form_categories_inv w jn prof :
  ranking_app.get_journal_categories w jn = Return (Some prof) ->
  exists resp u presp,
    get_search w jn = Return resp /\
    get_profile w u = Return presp /\
    ranking_app.Category prof = map name (categories_of_page (soup presp)) /\
    ranking_app.ids prof = map id (categories_of_page (soup presp)).
Proof.
  unfold ranking_app.get_journal_categories,
    ranking_app.get_journal_categories_body, try_except.
  intros H.
  destruct (get_search w jn) as [resp|e] eqn:Es; cbn [bind] in H;
    [|discriminate].
  destruct (ranking_app.select_candidate jn (soup resp)) as [[jl rt]|e]
    eqn:Ec; cbn [bind] in H; [|discriminate].
  destruct (falsy jl); [discriminate|].
  match type of H with context [get_profile w ?u] =>
    destruct (get_profile w u) as [presp|e] eqn:Ep; exists resp, u end;
    cbn [bind] in H; [|discriminate].
  injection H as <-. cbn [ranking_app.Category ranking_app.ids].
  exists presp. auto.
Qed.

(** C8. Whenever either script returns the categories of a journal, they
    are those of the fetched profile page without duplicates: one entry per
    distinct category id, in the order of first discovery, each under the
    text of the first link with that id, as many entries as distinct ids. *)
Theorem categories_listed_once (w : web) (journal_name : string) :
  (forall prof,
     journal_ranking.get_journal_categories w journal_name
       = Return (Some prof) ->
     exists resp,
       get_profile w (journal_ranking.url prof) = Return resp /\
       deduplicated (find_category_links (profile_links (soup resp)))
                    (journal_ranking.categories prof)) /\
  (forall prof,
     ranking_app.get_journal_categories w journal_name
       = Return (Some prof) ->
     exists u resp out,
       get_profile w u = Return resp /\
       deduplicated (find_category_links (profile_links (soup resp))) out /\
       ranking_app.Category prof = map name out /\
       ranking_app.ids prof = map id out).
Proof.
  split; intros prof H.
  - destruct (tool_categories_inv _ _ _ H) as (resp & presp & _ & Hp & Hc).
    exists presp. split; [assumption|]. rewrite Hc.
    apply fill_category_map_deduplicated.
  - destruct (form_categories_inv _ _ _ H) as (resp & u & presp & _ & Hp & Hc & Hi).
    exists u, presp, (categories_of_page (soup presp)).
    split; [assumption|]. split; [|split; assumption].
    apply fill_category_map_deduplicated.
Qed.

(** The sample profile links category 1000 twice and category 3100 twice;
    both scripts list each once, under the first text. *)
Lemma categories_listed_once_witness :
  (exists prof,
     journal_ranking.get_journal_categories Sample.site "Nature"
       = Return (Some prof) /\
     journal_ranking.categories prof =
       [ {| name := "Multidisciplinary"; id := "1000" |};
         {| name := "Physics and Astronomy"; id := "3100" |} ] /\
     exists resp,
       get_profile Sample.site (journal_ranking.url prof) = Return resp /\
       deduplicated (find_category_links (profile_links (soup resp)))
                    (journal_ranking.categories prof)) /\
  (exists prof,
     ranking_app.get_journal_categories Sample.site "Nature"
       = Return (Some prof) /\
     ranking_app.ids prof = ["1000"; "3100"] /\
     exists u resp out,
       get_profile Sample.site u = Return resp /\
       deduplicated (find_category_links (profile_links (soup resp))) out /\
       ranking_app.Category prof = map name out /\
       ranking_app.ids prof = map id out).
Proof.
  split.
  - eexists. split; [reflexivity|]. split; [reflexivity|].
    apply (proj1 (categories_listed_once Sample.site "Nature")).
    reflexivity.
  - eexists. split; [reflexivity|]. split; [reflexivity|].
    apply (proj2 (categories_listed_once Sample.site "Nature")).
    reflexivity.
Defined.

Lemma candidate_loop_first_equal jn pre a post jl rt :
  Forall well_formed (pre ++ a :: post) ->
  Forall (fun b => title_equals jn b = false) pre ->
  title_equals jn a = true ->
  ranking_app.candidate_loop jn (pre ++ a :: post) jl rt
    = Return (link_href a, jrnlname a).
Proof.
  revert jl rt. induction pre as [|b pre IH]; intros jl rt Hwf Hpre Ha.
  - simpl in *. apply Forall_inv in Hwf. destruct Hwf as [Hh Ht].
    unfold title_equals in Ha. unfold getitem_href, jrnlname_text.
    destruct (link_href a) as [h|]; [|congruence].
    destruct (jrnlname a) as [t|]; [|congruence].
    cbn [bind]. rewrite Ha. reflexivity.
  - simpl in *.
    pose proof (Forall_inv Hwf) as [Hh Ht]. apply Forall_inv_tail in Hwf.
    pose proof (Forall_inv Hpre) as Hb. apply Forall_inv_tail in Hpre.
    unfold title_equals in Hb. unfold getitem_href, jrnlname_text.
    destruct (link_href b) as [h|]; [|congruence].
    destruct (jrnlname b) as [t|]; [|congruence].
    cbn [bind]. rewrite Hb. apply IH; assumption.
Qed.

(** C1, as amended. With every candidate carrying a link target and a
    display title, the command-line tool selects the first candidate of the
    first results container whatever the titles, and the interactive form
    selects the first candidate whose title equals the query
    case-insensitively, when there is one. *)
Theorem candidate_selection (journal_name : string) (soup : search_page)
    (c : result_link) (cs : list result_link)
    (rest : list (list result_link)) :
  search_results soup = (c :: cs) :: rest ->
  Forall well_formed (c :: cs) ->
  journal_ranking.select_candidate soup = Return (link_href c, jrnlname c) /\
  (forall pre a post,
     c :: cs = (pre ++ a :: post)%list ->
     Forall (fun b => title_equals journal_name b = false) pre ->
     title_equals journal_name a = true ->
     ranking_app.select_candidate journal_name soup
       = Return (link_href a, jrnlname a)).
Proof.
  intros Hs Hwf. split.
  - unfold journal_ranking.select_candidate. rewrite Hs.
    apply Forall_inv in Hwf. destruct Hwf as [Hh Ht].
    unfold getitem_href, jrnlname_text.
    destruct (link_href c); [|congruence].
    destruct (jrnlname c); [|congruence]. reflexivity.
  - intros pre a post E Hpre Ha.
    unfold ranking_app.select_candidate. rewrite Hs. cbn [bind].
    rewrite E in *. apply candidate_loop_first_equal; assumption.
Qed.

(** The sample results for the query "nature": the tool selects
    "Nature Physics", the form selects "Nature". *)
Lemma candidate_selection_witness :
  journal_ranking.select_candidate Sample.nature_results
    = Return (Some "journalsearch.php?q=1&tip=sid", Some "Nature Physics") /\
  ranking_app.select_candidate "nature" Sample.nature_results
    = Return (Some "journalsearch.php?q=2&tip=sid", Some "Nature").
Proof.
  destruct (candidate_selection "nature" Sample.nature_results
              _ _ [] eq_refl) as [Ht Hf].
  - repeat constructor; simpl; discriminate.
  - split; [exact Ht|].
    apply (Hf [ {| link_href := Some "journalsearch.php?q=1&tip=sid";
                   jrnlname := Some "Nature Physics" |} ]
              {| link_href := Some "journalsearch.php?q=2&tip=sid";
                 jrnlname := Some "Nature" |}
              [ {| link_href := Some "journalsearch.php?q=3&tip=sid";
                   jrnlname := Some "Nature Materials" |} ]).
    + reflexivity.
    + repeat constructor.
    + reflexivity.
Defined.

(** C1 as stated fails in both scripts. For the query "nature" the second
    candidate's title equals the query, yet the command-line tool opens the
    profile of the first candidate, "Nature Physics". For the query
    "natur" no title equals the query, and the interactive form keeps the
    last candidate, "Nature Materials", not the first. *)
Lemma selection_is_not_exact_then_first :
  title_equals "nature"
    {| link_href := Some "journalsearch.php?q=2&tip=sid";
       jrnlname := Some "Nature" |} = true /\
  (exists prof,
     journal_ranking.get_journal_categories Sample.site "nature"
       = Return (Some prof) /\
     journal_ranking.journal prof = Some "Nature Physics" /\
     journal_ranking.url prof
       = "https://www.scimagojr.com/journalsearch.php?q=1&tip=sid") /\
  forallb (fun a => negb (title_equals "natur" a))
          (List.concat (search_results Sample.nature_results)) = true /\
  ranking_app.select_candidate "natur" Sample.nature_results
    = Return (Some "journalsearch.php?q=3&tip=sid", Some "Nature Materials").
Proof.
  split; [reflexivity|]. split; [|split; reflexivity].
  eexists. split; [reflexivity|]. split; reflexivity.
Qed.

(** ** The Ranking Locator of the command-line tool *)

Lemma urls_cons cid y page n :
  urls cid y page (S n) = listing_url cid page y :: urls cid y (S page) n.
Proof. reflexivity. Qed.

Lemma urls_length cid y page n : List.length (urls cid y page n) = n.
Proof. unfold urls. rewrite length_map, length_seq. reflexivity. Qed.

Lemma tool_scan_rows_none jn cid page nj rows :
  Forall (fun row => matches jn row = false) rows ->
  journal_ranking.scan_rows jn cid page nj rows = Return None.
Proof.
  induction 1 as [|row rows Hrow _ IH]; simpl; [reflexivity|].
  unfold matches in Hrow. destruct (title_tag row); [|assumption].
  rewrite Hrow. assumption.
Qed.

Lemma tool_scan_rows_first jn cid page nj rows row t :
  first_match jn rows row ->
  title_tag row = Some t ->
  journal_ranking.scan_rows jn cid page nj rows =
  (rank <- first_col row ;;
   Return (Some {| journal_ranking.Journal := t;
                   journal_ranking.Rank := rank;
                   journal_ranking.Number_journals := nj;
                   journal_ranking.Quartile := quartile_of row;
                   journal_ranking.Category_ID := cid;
                   journal_ranking.Page_Found := page |})).
Proof.
  intros (pre & post & -> & Hpre & Hrow) Ht.
  induction Hpre as [|x pre Hx _ IH]; simpl.
  - unfold matches in Hrow. rewrite Ht in *. rewrite Hrow. reflexivity.
  - unfold matches in Hx. destruct (title_tag x); [|assumption].
    rewrite Hx. assumption.
Qed.

Lemma tool_scan_rows_inv jn cid page nj rows res :
  journal_ranking.scan_rows jn cid page nj rows = Return res ->
  match res with
  | None => Forall (fun row => matches jn row = false) rows
  | Some r =>
      exists row,
        first_match jn rows row /\
        title_tag row = Some (journal_ranking.Journal r) /\
        first_col row = Return (journal_ranking.Rank r) /\
        journal_ranking.Quartile r = quartile_of row /\
        journal_ranking.Number_journals r = nj /\
        journal_ranking.Category_ID r = cid /\
        journal_ranking.Page_Found r = page
  end.
Proof.
  induction rows as [|x rows IH]; simpl.
  - intros [= <-]. constructor.
  - destruct (matches jn x) eqn:Hx.
    + unfold matches in Hx. destruct (title_tag x) as [t|] eqn:Ht;
        [|discriminate].
      rewrite Hx. destruct (first_col x) as [rank|e] eqn:Hc; cbn [bind];
        [|discriminate].
      intros [= <-]. exists x. simpl. repeat split; try assumption.
      exists [], rows. repeat split; [constructor|].
      unfold matches. rewrite Ht. assumption.
    + intros H.
      assert (H' : journal_ranking.scan_rows jn cid page nj rows = Return res).
      { unfold matches in Hx. destruct (title_tag x); [|assumption].
        rewrite Hx in H. assumption. }
      specialize (IH H'). destruct res as [r|].
      * destruct IH as (row & (pre & post & -> & Hpre & Hrow) & Hrest).
        exists row. split; [|assumption].
        exists (x :: pre), post. repeat split; [constructor|]; assumption.
      * constructor; assumption.
Qed.

Lemma tool_try_body_unmatched w jn cid y q :
  unmatched_page w jn cid y q ->
  journal_ranking.try_body w jn cid y q = Return NextIteration.
Proof.
  intros (listing & (resp & Hg & Hs & -> & Hlen) & Hrows).
  unfold journal_ranking.try_body. rewrite Hg. cbn [bind]. rewrite Hs.
  cbn [Z.eqb Pos.eqb negb].
  apply Nat.leb_gt in Hlen. rewrite Hlen.
  rewrite tool_scan_rows_none by assumption. reflexivity.
Qed.

Lemma tool_try_body_empty w jn cid y q :
  empty_page w cid y q ->
  journal_ranking.try_body w jn cid y q = Return Break.
Proof.
  intros (resp & Hg & Hs & Hlen).
  unfold journal_ranking.try_body. rewrite Hg. cbn [bind]. rewrite Hs.
  cbn [Z.eqb Pos.eqb negb].
  apply Nat.leb_le in Hlen. rewrite Hlen. reflexivity.
Qed.

Lemma tool_try_body_match w jn cid y q listing row t :
  data_page w cid y q listing ->
  first_match jn (table_rows listing) row ->
  title_tag row = Some t ->
  journal_ranking.try_body w jn cid y q =
  (rank <- first_col row ;;
   Return (ReturnValue
     {| journal_ranking.Journal := t;
        journal_ranking.Rank := rank;
        journal_ranking.Number_journals := get_total_journals listing;
        journal_ranking.Quartile := quartile_of row;
        journal_ranking.Category_ID := cid;
        journal_ranking.Page_Found := q |})).
Proof.
  intros (resp & Hg & Hs & -> & Hlen) Hm Ht.
  unfold journal_ranking.try_body. rewrite Hg. cbn [bind]. rewrite Hs.
  cbn [Z.eqb Pos.eqb negb].
  apply Nat.leb_gt in Hlen. rewrite Hlen.
  rewrite (tool_scan_rows_first _ _ _ _ _ _ _ Hm Ht).
  destruct (first_col row); reflexivity.
Qed.

Lemma tool_try_body_inv w jn cid y q c :
  journal_ranking.try_body w jn cid y q = Return c ->
  match c with
  | NextIteration => unmatched_page w jn cid y q
  | Break =>
      (exists resp, get_listing w (listing_url cid q y) = Return resp /\
                    status_code resp <> 200%Z) \/
      empty_page w cid y q
  | ReturnValue r =>
      exists listing row,
        data_page w cid y q listing /\
        first_match jn (table_rows listing) row /\
        title_tag row = Some (journal_ranking.Journal r) /\
        first_col row = Return (journal_ranking.Rank r) /\
        journal_ranking.Quartile r = quartile_of row /\
        journal_ranking.Number_journals r = get_total_journals listing /\
        journal_ranking.Category_ID r = cid /\
        journal_ranking.Page_Found r = q
  end.
Proof.
  unfold journal_ranking.try_body.
  destruct (get_listing w (listing_url cid q y)) as [resp|e] eqn:Hg;
    cbn [bind]; [|discriminate].
  destruct (Z.eqb_spec (status_code resp) 200) as [Hs|Hs]; cbn [negb].
  2:{ intros [= <-]. left. exists resp. auto. }
  destruct (Nat.leb_spec (List.length (table_rows (soup resp))) 1) as [Hl|Hl].
  { intros [= <-]. right. exists resp. auto. }
  destruct (journal_ranking.scan_rows jn cid q
              (get_total_journals (soup resp)) (table_rows (soup resp)))
    as [[r|]|e] eqn:Hscan; cbn [bind]; [| |discriminate].
  - intros [= <-]. apply tool_scan_rows_inv in Hscan.
    destruct Hscan as (row & Hm & Hrest).
    exists (soup resp), row. split; [exists resp; auto|]. auto.
  - intros [= <-]. apply tool_scan_rows_inv in Hscan.
    exists (soup resp). split; [exists resp; auto|]. assumption.
Qed.

Lemma tool_pagination_unfold w jn cid y page :
  journal_ranking.pagination w jn cid y page =
  match try_except (journal_ranking.try_body w jn cid y page)
                   (fun _ => Return Break) with
  | Return (ReturnValue r) => ([listing_url cid page y], Return (Some r))
  | Return Break => ([listing_url cid page y], Return None)
  | Raise e => ([listing_url cid page y], Raise e)
  | Return NextIteration =>
      if (page + 1 <=? 100)%nat
      then (listing_url cid page y
              :: fst (journal_ranking.pagination w jn cid y (page + 1)),
            snd (journal_ranking.pagination w jn cid y (page + 1)))
      else ([listing_url cid page y], Return None)
  end.
Proof.
  rewrite journal_ranking.pagination_equation_1.
  destruct (try_except _ _) as [[r| |]|e]; simpl; try reflexivity.
  destruct (le_lt_dec (page + 1) 100) as [H|H]; simpl.
  - apply Nat.leb_le in H. rewrite H. reflexivity.
  - apply Nat.leb_gt in H. rewrite H. reflexivity.
Qed.

(** The shape of every run from [page]: pages [page .. last] are requested
    in order, all but the last one end in [NextIteration], and the result
    comes from the last one. *)
Lemma tool_pagination_shape w jn cid y k : forall page,
  (101 - page <= k)%nat -> (page <= 100)%nat ->
  exists last,
    (page <= last <= 100)%nat /\
    fst (journal_ranking.pagination w jn cid y page)
      = urls cid y page (last + 1 - page) /\
    (forall q, (page <= q < last)%nat ->
       journal_ranking.try_body w jn cid y q = Return NextIteration) /\
    match snd (journal_ranking.pagination w jn cid y page) with
    | Return (Some r) =>
        journal_ranking.try_body w jn cid y last = Return (ReturnValue r)
    | Return None =>
        forall r, journal_ranking.try_body w jn cid y last
                    <> Return (ReturnValue r)
    | Raise _ => False
    end.
Proof.
  induction k as [|k IH]; intros page Hk Hp; [lia|].
  assert (Hone : (page + 1 - page = 1)%nat) by lia.
  rewrite tool_pagination_unfold.
  destruct (journal_ranking.try_body w jn cid y page) as [[r| |]|e] eqn:Hb;
    cbn [try_except].
  - exists page. rewrite Hone. cbn [fst snd].
    split; [lia|]. split; [reflexivity|]. split; [intros; lia|assumption].
  - exists page. rewrite Hone. cbn [fst snd].
    split; [lia|]. split; [reflexivity|]. split; [intros; lia|].
    intros r. congruence.
  - destruct (Nat.leb_spec (page + 1) 100) as [Hle|Hgt].
    + destruct (IH (page + 1)%nat) as (last & Hl & Hu & Hq & Hr); try lia.
      exists last. cbn [fst snd]. split; [lia|]. split; [|split].
      * rewrite Hu. replace (last + 1 - page)%nat
          with (S (last + 1 - (page + 1)))%nat by lia.
        rewrite urls_cons, Nat.add_1_r. reflexivity.
      * intros q Hqr. destruct (Nat.eq_dec q page) as [->|Hne];
          [assumption|]. apply Hq. lia.
      * assumption.
    + exists page. rewrite Hone. cbn [fst snd].
      split; [lia|]. split; [reflexivity|]. split; [intros; lia|].
      intros r. congruence.
  - exists page. rewrite Hone. cbn [fst snd].
    split; [lia|]. split; [reflexivity|]. split; [intros; lia|].
    intros r. congruence.
Qed.

(** Pages that end in [NextIteration] are passed over. *)
Lemma tool_pagination_skip w jn cid y n : forall page,
  (forall q, (page <= q < page + n)%nat ->
     journal_ranking.try_body w jn cid y q = Return NextIteration) ->
  (page + n <= 100)%nat ->
  journal_ranking.pagination w jn cid y page =
  ((urls cid y page n
      ++ fst (journal_ranking.pagination w jn cid y (page + n)))%list,
   snd (journal_ranking.pagination w jn cid y (page + n))).
Proof.
  induction n as [|n IH]; intros page Hq Hle.
  - rewrite Nat.add_0_r. simpl. destruct (journal_ranking.pagination _ _ _ _ _).
    reflexivity.
  - rewrite tool_pagination_unfold. rewrite Hq by lia. cbn [try_except].
    destruct (Nat.leb_spec (page + 1) 100) as [_|Hgt]; [|lia].
    rewrite IH; [|intros; apply Hq; lia|lia].
    cbn [fst snd]. rewrite urls_cons, Nat.add_1_r.
    replace (S page + n)%nat with (page + S n)%nat by lia. reflexivity.
Qed.

(** ** The Ranking Locator of the interactive form, against the tool's *)

Lemma form_scan_rows_tool now jn cid page y nj cat rows :
  ranking_app.scan_rows now jn y nj cat rows =
  match journal_ranking.scan_rows jn cid page nj rows with
  | Return None => Return None
  | Return (Some r) =>
      pc <- ranking_app.percentile_of (journal_ranking.Rank r)
                                      (journal_ranking.Number_journals r) ;;
      Return (Some
        {| ranking_app.Journal := journal_ranking.Journal r;
           ranking_app.Category_name := [cat];
           ranking_app.Category_Rank :=
             "#" ++ journal_ranking.Rank r ++ " of "
                 ++ ranking_app.str_of_total
                      (journal_ranking.Number_journals r);
           ranking_app.Percentile := pc;
           ranking_app.Quartile := journal_ranking.Quartile r;
           ranking_app.Year :=
             match y with
             | Some EmptyString => ranking_app.YearNow now
             | _ => ranking_app.YearGiven y
             end |})
  | Raise e => Raise e
  end.
Proof.
  induction rows as [|x rows IH]; simpl; [reflexivity|].
  destruct (title_tag x) as [t|]; [|assumption].
  destruct (Py.contains (Py.lower jn) (Py.lower t)); [|assumption].
  destruct (first_col x) as [rank|e]; reflexivity.
Qed.

Lemma form_iteration_tool now w jn cid y page :
  try_except (ranking_app.try_body now w jn cid y page)
             (fun _ => Return Break) =
  match try_except (journal_ranking.try_body w jn cid y page)
                   (fun _ => Return Break) with
  | Return (ReturnValue r) =>
      match form_of_tool now w cid y r with
      | Some r' => Return (ReturnValue r')
      | None => Return Break
      end
  | Return Break => Return Break
  | Return NextIteration => Return NextIteration
  | Raise e => Raise e
  end.
Proof.
  unfold ranking_app.try_body, journal_ranking.try_body.
  destruct (get_listing w (listing_url cid page y)) as [resp|e] eqn:Hg;
    cbn [bind try_except]; [|reflexivity].
  destruct (negb (status_code resp =? 200)%Z); cbn [try_except];
    [reflexivity|].
  destruct (List.length (table_rows (soup resp)) <=? 1)%nat;
    cbn [try_except]; [reflexivity|].
  rewrite (form_scan_rows_tool now jn cid page).
  destruct (journal_ranking.scan_rows jn cid page
              (get_total_journals (soup resp)) (table_rows (soup resp)))
    as [[r|]|e] eqn:Hscan; cbn [bind try_except]; try reflexivity.
  apply tool_scan_rows_inv in Hscan.
  destruct Hscan as (row & _ & _ & _ & _ & _ & _ & Hpage).
  unfold form_of_tool. rewrite Hpage, Hg.
  destruct (ranking_app.percentile_of _ _); reflexivity.
Qed.

Lemma form_pagination_unfold now w jn cid y page :
  ranking_app.pagination now w jn cid y page =
  match try_except (ranking_app.try_body now w jn cid y page)
                   (fun _ => Return Break) with
  | Return (ReturnValue r) => ([listing_url cid page y], Return (Some r))
  | Return Break => ([listing_url cid page y], Return None)
  | Raise e => ([listing_url cid page y], Raise e)
  | Return NextIteration =>
      if (page + 1 <=? 100)%nat
      then (listing_url cid page y
              :: fst (ranking_app.pagination now w jn cid y (page + 1)),
            snd (ranking_app.pagination now w jn cid y (page + 1)))
      else ([listing_url cid page y], Return None)
  end.
Proof.
  rewrite ranking_app.pagination_equation_1.
  destruct (try_except _ _) as [[r| |]|e]; simpl; try reflexivity.
  destruct (le_lt_dec (page + 1) 100) as [H|H]; simpl.
  - apply Nat.leb_le in H. rewrite H. reflexivity.
  - apply Nat.leb_gt in H. rewrite H. reflexivity.
Qed.

(** The form requests the pages the tool requests and ends where it ends:
    with nothing when the tool has nothing, and with the tool's row, put
    in the form's shape, when the tool has one. *)
Lemma form_pagination_tool now w jn cid y k : forall page,
  (101 - page <= k)%nat ->
  ranking_app.pagination now w jn cid y page =
  (fst (journal_ranking.pagination w jn cid y page),
   match snd (journal_ranking.pagination w jn cid y page) with
   | Return (Some r) => Return (form_of_tool now w cid y r)
   | Return None => Return None
   | Raise e => Raise e
   end).
Proof.
  induction k as [|k IH]; intros page Hk;
    rewrite form_pagination_unfold, tool_pagination_unfold,
      form_iteration_tool;
    (destruct (try_except (journal_ranking.try_body w jn cid y page) _)
       as [[r| |]|e]; cbn [fst snd]; try reflexivity;
     [destruct (form_of_tool now w cid y r); reflexivity|]);
    destruct (Nat.leb_spec (page + 1) 100) as [Hle|Hgt];
    try reflexivity; try lia.
  rewrite IH by lia. reflexivity.
Qed.

Lemma form_run_tool now w jn cid y :
  ranking_app.get_scimago_ranking_run now w jn cid y =
  (fst (journal_ranking.get_scimago_ranking_run w jn cid y),
   match snd (journal_ranking.get_scimago_ranking_run w jn cid y) with
   | Return (Some r) => Return (form_of_tool now w cid y r)
   | Return None => Return None
   | Raise e => Raise e
   end).
Proof. apply (form_pagination_tool now w jn cid y 100). lia. Qed.

Lemma form_of_tool_inv now w cid y r r' :
  form_of_tool now w cid y r = Some r' ->
  ranking_app.Journal r' = journal_ranking.Journal r /\
  ranking_app.Quartile r' = journal_ranking.Quartile r /\
  ranking_app.Category_Rank r' =
    "#" ++ journal_ranking.Rank r ++ " of "
        ++ ranking_app.str_of_total (journal_ranking.Number_journals r) /\
  exists n t,
    Py.int_of_str (journal_ranking.Rank r) = Some n /\
    journal_ranking.Number_journals r = Some t /\
    ranking_app.Percentile r' =
      {| ranking_app.dividend := 100 * n; ranking_app.divisor := t |}.
Proof.
  unfold form_of_tool, ranking_app.percentile_of.
  destruct (get_listing w _) as [resp|e]; [|discriminate].
  destruct (Py.int_of_str (journal_ranking.Rank r)) as [n|]; cbn [bind];
    [|discriminate].
  destruct (journal_ranking.Number_journals r) as [t|]; cbn [bind];
    [|discriminate].
  destruct (Py.true_div_overflows (100 * n) t); [discriminate|].
  intros [= <-]. cbn. repeat split. exists n, t. auto.
Qed.

(** No run lets an exception out. *)
Lemma tool_run_returns w jn cid y :
  exists res, journal_ranking.get_scimago_ranking w jn cid y = Return res.
Proof.
  unfold journal_ranking.get_scimago_ranking,
    journal_ranking.get_scimago_ranking_run.
  destruct (tool_pagination_shape w jn cid y 100 1)
    as (last & _ & _ & _ & H); try lia.
  destruct (snd (journal_ranking.pagination w jn cid y 1)) as [res|e];
    [exists res; reflexivity|contradiction].
Qed.

Lemma form_run_returns now w jn cid y :
  exists res, ranking_app.get_scimago_ranking now w jn cid y = Return res.
Proof.
  unfold ranking_app.get_scimago_ranking. rewrite form_run_tool. cbn [snd].
  destruct (tool_run_returns w jn cid y) as (res & H).
  unfold journal_ranking.get_scimago_ranking in H. rewrite H.
  destruct res; eexists; reflexivity.
Qed.

(** ** Runs of the Ranking Locator *)

Lemma urls_snoc cid y a n :
  (urls cid y a n ++ [listing_url cid (a + n) y])%list = urls cid y a (S n).
Proof. unfold urls. rewrite seq_S, map_app. reflexivity. Qed.

Lemma tool_run_shape w jn cid y :
  exists last,
    (1 <= last <= 100)%nat /\
    fst (journal_ranking.get_scimago_ranking_run w jn cid y)
      = urls cid y 1 last /\
    (forall q, (1 <= q < last)%nat ->
       journal_ranking.try_body w jn cid y q = Return NextIteration) /\
    match snd (journal_ranking.get_scimago_ranking_run w jn cid y) with
    | Return (Some r) =>
        journal_ranking.try_body w jn cid y last = Return (ReturnValue r)
    | Return None =>
        forall r, journal_ranking.try_body w jn cid y last
                    <> Return (ReturnValue r)
    | Raise _ => False
    end.
Proof.
  unfold journal_ranking.get_scimago_ranking_run.
  destruct (tool_pagination_shape w jn cid y 100 1)
    as (last & Hl & Hu & Hq & Hr); try lia.
  exists last. replace (last + 1 - 1)%nat with last in Hu by lia. auto.
Qed.

Lemma tool_run_stops_at w jn cid y p c :
  (1 <= p <= 100)%nat ->
  (forall q, (1 <= q < p)%nat -> unmatched_page w jn cid y q) ->
  try_except (journal_ranking.try_body w jn cid y p) (fun _ => Return Break)
    = Return c ->
  c <> NextIteration \/ p = 100%nat ->
  journal_ranking.get_scimago_ranking_run w jn cid y
    = (urls cid y 1 p, Return (result_of c)).
Proof.
  intros Hp Hq Hc Hend. destruct p as [|n]; [lia|].
  unfold journal_ranking.get_scimago_ranking_run.
  rewrite (tool_pagination_skip w jn cid y n 1);
    [|intros; apply tool_try_body_unmatched, Hq; lia|lia].
  change (1 + n)%nat with (S n).
  rewrite tool_pagination_unfold, Hc, <- urls_snoc.
  change (1 + n)%nat with (S n).
  destruct c as [r| |]; cbn [fst snd result_of]; try reflexivity.
  destruct Hend as [Hend|Hend]; [congruence|].
  injection Hend as ->. reflexivity.
Qed.

Lemma tool_record_located w jn cid y r :
  journal_ranking.get_scimago_ranking w jn cid y = Return (Some r) ->
  from_first_match w jn cid y (journal_ranking.Journal r)
    (journal_ranking.Rank r) (journal_ranking.Number_journals r)
    (journal_ranking.Quartile r).
Proof.
  unfold journal_ranking.get_scimago_ranking. intros H.
  destruct (tool_run_shape w jn cid y) as (last & Hl & _ & Hq & Hr).
  rewrite H in Hr. apply tool_try_body_inv in Hr.
  destruct Hr as (listing & row & Hd & Hm & Ht & Hc & Hqu & Hn & _ & _).
  exists last, listing, row. split; [assumption|]. split.
  { intros q Hlt. apply (tool_try_body_inv w jn cid y q NextIteration).
    apply Hq. assumption. }
  repeat split; try assumption; try (symmetry; assumption).
  destruct Hm as (pre & post & _ & _ & Hrow).
  unfold matches in Hrow. rewrite Ht in Hrow. assumption.
Qed.

Lemma form_result_None now w jn cid y :
  journal_ranking.get_scimago_ranking w jn cid y = Return None ->
  ranking_app.get_scimago_ranking now w jn cid y = Return None.
Proof.
  unfold ranking_app.get_scimago_ranking, journal_ranking.get_scimago_ranking.
  rewrite form_run_tool. cbn [snd]. intros ->. reflexivity.
Qed.

Lemma form_run_None now w jn cid y reqs :
  journal_ranking.get_scimago_ranking_run w jn cid y = (reqs, Return None) ->
  ranking_app.get_scimago_ranking_run now w jn cid y = (reqs, Return None).
Proof. intros H. rewrite form_run_tool, H. reflexivity. Qed.

(** C2. The loop is a total function of the site. In both scripts it
    requests pages 1, 2, ... and at most 100 of them; it never goes past a
    page that has no data rows beyond a header, and answers not-found when
    it stops there; it stops there whenever the pages before hold data
    without a match; and when all of pages 1 to 100 hold data without a
    match it stops after page 100 with not-found. *)
Theorem pagination_stops (now_year : Z) (w : web)
    (journal_name category_id : string) (year : option string) :
  let tool :=
    journal_ranking.get_scimago_ranking_run w journal_name category_id year in
  let form :=
    ranking_app.get_scimago_ranking_run now_year w journal_name category_id
                                        year in
  (exists n, (1 <= n <= 100)%nat /\
     fst tool = urls category_id year 1 n /\
     fst form = urls category_id year 1 n) /\
  (forall p, (1 <= p)%nat -> empty_page w category_id year p ->
     (List.length (fst tool) <= p)%nat /\
     (List.length (fst form) <= p)%nat /\
     (List.length (fst tool) = p ->
        snd tool = Return None /\ snd form = Return None)) /\
  (forall p, (1 <= p <= 100)%nat ->
     (forall q, (1 <= q < p)%nat ->
        unmatched_page w journal_name category_id year q) ->
     empty_page w category_id year p ->
     tool = (urls category_id year 1 p, Return None) /\
     form = (urls category_id year 1 p, Return None)) /\
  ((forall q, (1 <= q <= 100)%nat ->
      unmatched_page w journal_name category_id year q) ->
   tool = (urls category_id year 1 100, Return None) /\
   form = (urls category_id year 1 100, Return None)).
Proof.
  intros tool form.
  assert (Hform : form =
            (fst tool,
             match snd tool with
             | Return (Some r) =>
                 Return (form_of_tool now_year w category_id year r)
             | Return None => Return None
             | Raise e => Raise e
             end)) by apply form_run_tool.
  destruct (tool_run_shape w journal_name category_id year)
    as (last & Hl & Hu & Hq & Hr).
  fold tool in Hu, Hr.
  split; [|split; [|split]].
  - exists last. rewrite Hform. auto.
  - intros p Hp Hempty.
    pose proof (tool_try_body_empty w journal_name category_id year p Hempty)
      as Hb.
    assert (Hle : (last <= p)%nat).
    { destruct (Nat.le_gt_cases last p) as [|Hlt]; [assumption|].
      rewrite Hq in Hb by lia. discriminate. }
    rewrite Hform. cbn [fst snd]. rewrite Hu, urls_length.
    split; [assumption|]. split; [assumption|].
    intros ->. destruct (snd tool) as [[r|]|e].
    + rewrite Hb in Hr. discriminate.
    + auto.
    + contradiction.
  - intros p Hp Hpre Hempty.
    assert (Ht : tool = (urls category_id year 1 p, Return None)).
    { apply (tool_run_stops_at w journal_name category_id year p Break);
        [assumption|assumption| |left; discriminate].
      rewrite (tool_try_body_empty _ _ _ _ _ Hempty). reflexivity. }
    split; [assumption|]. apply form_run_None. assumption.
  - intros Hall.
    assert (Ht : tool = (urls category_id year 1 100, Return None)).
    { apply (tool_run_stops_at w journal_name category_id year 100
               NextIteration); [lia|intros; apply Hall; lia| |right; reflexivity].
      rewrite (tool_try_body_unmatched w journal_name category_id year 100)
        by (apply Hall; lia).
      reflexivity. }
    split; [assumption|]. apply form_run_None. assumption.
Qed.

Lemma sample_1000_unmatched q :
  (1 <= q < 4)%nat -> unmatched_page Sample.site "zzz" "1000" None q.
Proof.
  intros Hq.
  assert (Hc : q = 1%nat \/ q = 2%nat \/ q = 3%nat) by lia.
  destruct Hc as [->|[->| ->]];
    (eexists; split;
     [eexists; split; [reflexivity|];
      split; [reflexivity|]; split; [reflexivity|]; simpl; lia
     |repeat constructor]).
Qed.

(** Three pages of data and an empty fourth page: four requests, then
    not-found, in both scripts. *)
Lemma pagination_stops_witness :
  journal_ranking.get_scimago_ranking_run Sample.site "zzz" "1000" None
    = (urls "1000" None 1 4, Return None) /\
  ranking_app.get_scimago_ranking_run 2026 Sample.site "zzz" "1000" None
    = (urls "1000" None 1 4, Return None).
Proof.
  destruct (pagination_stops 2026 Sample.site "zzz" "1000" None)
    as (_ & _ & H & _).
  apply (H 4%nat).
  - lia.
  - apply sample_1000_unmatched.
  - eexists. split; [reflexivity|]. split; [reflexivity|]. simpl. lia.
Defined.

(** C10. A record returned by either script carries a title that contains
    the query case-insensitively, and it is read off the first matching row
    in page-then-row order: no row before it on its page matches, and the
    pages before hold data without a match. *)
Theorem returned_record_is_first_match (now_year : Z) (w : web)
    (journal_name category_id : string) (year : option string) :
  (forall r,
     journal_ranking.get_scimago_ranking w journal_name category_id year
       = Return (Some r) ->
     from_first_match w journal_name category_id year
       (journal_ranking.Journal r) (journal_ranking.Rank r)
       (journal_ranking.Number_journals r) (journal_ranking.Quartile r)) /\
  (forall r,
     ranking_app.get_scimago_ranking now_year w journal_name category_id year
       = Return (Some r) ->
     exists rank total,
       from_first_match w journal_name category_id year
         (ranking_app.Journal r) rank total (ranking_app.Quartile r) /\
       ranking_app.Category_Rank r =
         "#" ++ rank ++ " of " ++ ranking_app.str_of_total total).
Proof.
  split; intros r H.
  - apply tool_record_located. assumption.
  - unfold ranking_app.get_scimago_ranking in H. rewrite form_run_tool in H.
    cbn [snd] in H.
    destruct (snd (journal_ranking.get_scimago_ranking_run
                     w journal_name category_id year)) as [[r0|]|e] eqn:Ht;
      try discriminate.
    injection H as H.
    destruct (form_of_tool_inv _ _ _ _ _ _ H) as (Hj & Hq & Hc & _).
    exists (journal_ranking.Rank r0), (journal_ranking.Number_journals r0).
    rewrite Hj, Hq. split; [|assumption].
    apply tool_record_located. assumption.
Qed.

(** For the query "nature" in category 1000 both scripts return the row
    "Nature Physics" of page 2. *)
Lemma returned_record_is_first_match_witness :
  from_first_match Sample.site "nature" "1000" None
    "Nature Physics" "2" (Some 120%Z) "Q2" /\
  exists rank total,
    from_first_match Sample.site "nature" "1000" None
      "Nature Physics" rank total "Q2" /\
    "#2 of 120" = "#" ++ rank ++ " of " ++ ranking_app.str_of_total total.
Proof.
  destruct (returned_record_is_first_match 2026 Sample.site "nature" "1000" None)
    as [Ht Hf].
  split.
  - apply (Ht {| journal_ranking.Journal := "Nature Physics";
                 journal_ranking.Rank := "2";
                 journal_ranking.Number_journals := Some 120%Z;
                 journal_ranking.Quartile := "Q2";
                 journal_ranking.Category_ID := "1000";
                 journal_ranking.Page_Found := 2 |}).
    reflexivity.
  - apply (Hf {| ranking_app.Journal := "Nature Physics";
                 ranking_app.Category_name := [" Physics"];
                 ranking_app.Category_Rank := "#2 of 120";
                 ranking_app.Percentile :=
                   {| ranking_app.dividend := 200;
                      ranking_app.divisor := 120 |};
                 ranking_app.Quartile := "Q2";
                 ranking_app.Year := ranking_app.YearGiven None |}).
    reflexivity.
Defined.

(** ** Rows whose record cannot be completed *)

Lemma tool_run_match w jn cid y p listing row t rank :
  (1 <= p <= 100)%nat ->
  (forall q, (1 <= q < p)%nat -> unmatched_page w jn cid y q) ->
  data_page w cid y p listing ->
  first_match jn (table_rows listing) row ->
  title_tag row = Some t ->
  first_col row = Return rank ->
  journal_ranking.get_scimago_ranking_run w jn cid y =
  (urls cid y 1 p,
   Return (Some {| journal_ranking.Journal := t;
                   journal_ranking.Rank := rank;
                   journal_ranking.Number_journals :=
                     get_total_journals listing;
                   journal_ranking.Quartile := quartile_of row;
                   journal_ranking.Category_ID := cid;
                   journal_ranking.Page_Found := p |})).
Proof.
  intros Hp Hq Hd Hm Ht Hc.
  apply (tool_run_stops_at w jn cid y p (ReturnValue _));
    [assumption|assumption| |left; discriminate].
  rewrite (tool_try_body_match w jn cid y p listing row t Hd Hm Ht), Hc.
  reflexivity.
Qed.

Lemma form_run_match_raises now w jn cid y p listing row t rank e :
  (1 <= p <= 100)%nat ->
  (forall q, (1 <= q < p)%nat -> unmatched_page w jn cid y q) ->
  data_page w cid y p listing ->
  first_match jn (table_rows listing) row ->
  title_tag row = Some t ->
  first_col row = Return rank ->
  ranking_app.percentile_of rank (get_total_journals listing) = Raise e ->
  ranking_app.get_scimago_ranking_run now w jn cid y
    = (urls cid y 1 p, Return None).
Proof.
  intros Hp Hq Hd Hm Ht Hc He.
  rewrite form_run_tool,
    (tool_run_match w jn cid y p listing row t rank Hp Hq Hd Hm Ht Hc).
  cbn [fst snd]. unfold form_of_tool.
  cbn [journal_ranking.Page_Found journal_ranking.Rank
       journal_ranking.Number_journals].
  rewrite He. destruct (get_listing w (listing_url cid p y)); reflexivity.
Qed.

(** C4 does not hold of the code. When the first matching row shows a rank
    that is not a plain integer, the interactive form fails to convert the
    rank, its handler ends the loop at that page, and the function returns
    not-found: the row is lost and no later row or page is examined. The
    command-line tool does not convert the rank inside the loop and returns
    the record of the row with the cell text as it is. *)
Theorem non_integer_rank_ends_the_scan (now_year : Z) (w : web)
    (journal_name category_id : string) (year : option string)
    (p : nat) (listing : listing_page) (row : table_row) (t rank : string) :
  (1 <= p <= 100)%nat ->
  (forall q, (1 <= q < p)%nat ->
     unmatched_page w journal_name category_id year q) ->
  data_page w category_id year p listing ->
  first_match journal_name (table_rows listing) row ->
  title_tag row = Some t ->
  first_col row = Return rank ->
  Py.int_of_str rank = None ->
  ranking_app.get_scimago_ranking_run now_year w journal_name category_id year
    = (urls category_id year 1 p, Return None) /\
  journal_ranking.get_scimago_ranking_run w journal_name category_id year
    = (urls category_id year 1 p,
       Return (Some {| journal_ranking.Journal := t;
                       journal_ranking.Rank := rank;
                       journal_ranking.Number_journals :=
                         get_total_journals listing;
                       journal_ranking.Quartile := quartile_of row;
                       journal_ranking.Category_ID := category_id;
                       journal_ranking.Page_Found := p |})).
Proof.
  intros Hp Hq Hd Hm Ht Hc Hi. split.
  - apply (form_run_match_raises now_year w journal_name category_id year
             p listing row t rank ValueError); try assumption.
    unfold ranking_app.percentile_of. rewrite Hi. reflexivity.
  - apply tool_run_match; assumption.
Qed.

Lemma sample_2000_first_match :
  first_match "nature"
    [Sample.header; Sample.row "Nature" "1,234" ["q1"];
     Sample.row "Nature Physics" "2" ["q1"]]
    (Sample.row "Nature" "1,234" ["q1"]).
Proof.
  exists [Sample.header], [Sample.row "Nature Physics" "2" ["q1"]].
  split; [reflexivity|]. split; [repeat constructor|reflexivity].
Qed.

Lemma sample_data_page cid rows :
  Sample.listing_of (listing_url cid 1 None) = Sample.ok (Sample.listing rows) ->
  (1 < List.length rows)%nat ->
  data_page Sample.site cid None 1 (Sample.listing rows).
Proof.
  intros H Hl. eexists. split; [exact H|].
  split; [reflexivity|]. split; [reflexivity|assumption].
Qed.

(** Category 2000 of the sample site: the row "Nature" shows "1,234". *)
Lemma non_integer_rank_ends_the_scan_witness :
  ranking_app.get_scimago_ranking_run 2026 Sample.site "nature" "2000" None
    = (urls "2000" None 1 1, Return None) /\
  journal_ranking.get_scimago_ranking_run Sample.site "nature" "2000" None
    = (urls "2000" None 1 1,
       Return (Some {| journal_ranking.Journal := "Nature";
                       journal_ranking.Rank := "1,234";
                       journal_ranking.Number_journals := Some 120%Z;
                       journal_ranking.Quartile := "Q1";
                       journal_ranking.Category_ID := "2000";
                       journal_ranking.Page_Found := 1 |})).
Proof.
  apply (non_integer_rank_ends_the_scan 2026 Sample.site "nature" "2000" None
           1 (Sample.listing [Sample.header; Sample.row "Nature" "1,234" ["q1"];
                              Sample.row "Nature Physics" "2" ["q1"]])
           (Sample.row "Nature" "1,234" ["q1"]) "Nature" "1,234").
  - lia.
  - intros q Hq. lia.
  - apply sample_data_page; [reflexivity|simpl; lia].
  - apply sample_2000_first_match.
  - reflexivity.
  - reflexivity.
  - reflexivity.
Defined.

(** C4 at a sample. On the first page of category 2000 the row "Nature"
    matches and shows "1,234"; the next row, "Nature Physics", matches too
    and shows the integer 2. The interactive form does not go on to that
    row: it requests one page and returns not-found. *)
Lemma scan_stops_at_non_integer_rank :
  first_match "nature"
    [Sample.header; Sample.row "Nature" "1,234" ["q1"];
     Sample.row "Nature Physics" "2" ["q1"]]
    (Sample.row "Nature" "1,234" ["q1"]) /\
  Py.int_of_str "1,234" = None /\
  matches "nature" (Sample.row "Nature Physics" "2" ["q1"]) = true /\
  Py.int_of_str "2" = Some 2%Z /\
  ranking_app.get_scimago_ranking_run 2026 Sample.site "nature" "2000" None
    = ([listing_url "2000" 1 None], Return None).
Proof.
  split; [apply sample_2000_first_match|].
  repeat split; reflexivity.
Qed.

(** C5 does not hold of the code. When the first matching row is found on a
    page from which no total can be read, the interactive form returns
    not-found,
    and the command-line tool returns the record with an unknown total,
    on which its report raises while printing the percentile. *)
Theorem unknown_total_loses_the_result (now_year : Z) (w : web)
    (journal_name category_id : string) (year : option string)
    (p : nat) (listing : listing_page) (row : table_row) (t rank : string) :
  (1 <= p <= 100)%nat ->
  (forall q, (1 <= q < p)%nat ->
     unmatched_page w journal_name category_id year q) ->
  data_page w category_id year p listing ->
  first_match journal_name (table_rows listing) row ->
  title_tag row = Some t ->
  first_col row = Return rank ->
  get_total_journals listing = None ->
  ranking_app.get_scimago_ranking now_year w journal_name category_id year
    = Return None /\
  exists r,
    journal_ranking.get_scimago_ranking w journal_name category_id year
      = Return (Some r) /\
    journal_ranking.Journal r = t /\
    journal_ranking.Rank r = rank /\
    journal_ranking.Quartile r = quartile_of row /\
    journal_ranking.Number_journals r = None /\
    exists e, journal_ranking.main_report (Some r) = Raise e.
Proof.
  intros Hp Hq Hd Hm Ht Hc Hn. split.
  - unfold ranking_app.get_scimago_ranking.
    assert (He : exists e, ranking_app.percentile_of rank
                             (get_total_journals listing) = Raise e).
    { unfold ranking_app.percentile_of. rewrite Hn.
      destruct (Py.int_of_str rank); cbn [bind]; eexists; reflexivity. }
    destruct He as (e & He).
    rewrite (form_run_match_raises now_year w journal_name category_id year
               p listing row t rank e); auto.
  - unfold journal_ranking.get_scimago_ranking.
    rewrite (tool_run_match w journal_name category_id year p listing row
               t rank); auto.
    eexists. split; [reflexivity|]. cbn. rewrite Hn.
    repeat split.
    destruct (Py.int_of_str rank); cbn [bind]; eexists; reflexivity.
Qed.

(** Category 3000 of the sample site: the row "Nature", rank 5, on a page
    without pagination links. *)
Lemma unknown_total_loses_the_result_witness :
  ranking_app.get_scimago_ranking 2026 Sample.site "nature" "3000" None
    = Return None /\
  exists r,
    journal_ranking.get_scimago_ranking Sample.site "nature" "3000" None
      = Return (Some r) /\
    journal_ranking.Journal r = "Nature" /\
    journal_ranking.Rank r = "5" /\
    journal_ranking.Quartile r = "Q1" /\
    journal_ranking.Number_journals r = None /\
    exists e, journal_ranking.main_report (Some r) = Raise e.
Proof.
  apply (unknown_total_loses_the_result 2026 Sample.site "nature" "3000" None
           1 (Sample.listing_without_total
                [Sample.header; Sample.row "Nature" "5" ["q1"]])
           (Sample.row "Nature" "5" ["q1"]) "Nature" "5").
  - lia.
  - intros q Hq. lia.
  - eexists. split; [reflexivity|].
    split; [reflexivity|]. split; [reflexivity|simpl; lia].
  - exists [Sample.header], []. split; [reflexivity|].
    split; [repeat constructor|reflexivity].
  - reflexivity.
  - reflexivity.
  - reflexivity.
Defined.

(** ** The two entry points side by side *)





(** ** Failures at the operation boundary *)

Lemma try_except_returns {A} (body : outcome (option A)) :
  exists r, try_except body (fun _ => Return None) = Return r.
Proof. destruct body as [a|e]; eexists; reflexivity. Qed.

Lemma categories_without_profile w jn :
  (forall u, exists e, get_profile w u = Raise e) ->
  journal_ranking.get_journal_categories w jn = Return None /\
  ranking_app.get_journal_categories w jn = Return None.
Proof.
  intros Hall.
  unfold journal_ranking.get_journal_categories,
    journal_ranking.get_journal_categories_body,
    ranking_app.get_journal_categories,
    ranking_app.get_journal_categories_body.
  destruct (get_search w jn) as [resp|e]; cbn [bind try_except]; [|auto].
  split.
  - destruct (journal_ranking.select_candidate (soup resp)) as [[jl rt]|e];
      cbn [bind try_except]; [|reflexivity].
    destruct (falsy jl); [reflexivity|].
    match goal with |- context [get_profile w ?u] =>
      destruct (Hall u) as (e & ->) end. reflexivity.
  - destruct (ranking_app.select_candidate jn (soup resp)) as [[jl rt]|e];
      cbn [bind try_except]; [|reflexivity].
    destruct (falsy jl); [reflexivity|].
    match goal with |- context [get_profile w ?u] =>
      destruct (Hall u) as (e & ->) end. reflexivity.
Qed.

Lemma rankings_stopped w jn cid y now p :
  (1 <= p <= 100)%nat ->
  (forall q, (1 <= q < p)%nat -> unmatched_page w jn cid y q) ->
  try_except (journal_ranking.try_body w jn cid y p) (fun _ => Return Break)
    = Return Break ->
  journal_ranking.get_scimago_ranking w jn cid y = Return None /\
  ranking_app.get_scimago_ranking now w jn cid y = Return None.
Proof.
  intros Hp Hq Hb.
  assert (Ht : journal_ranking.get_scimago_ranking w jn cid y = Return None).
  { unfold journal_ranking.get_scimago_ranking.
    rewrite (tool_run_stops_at w jn cid y p Break Hp Hq Hb);
      [reflexivity|left; discriminate]. }
  split; [assumption|apply form_result_None; assumption].
Qed.

Lemma categories_same_body w w' jn :
  (forall q, same_body (get_search w q) (get_search w' q)) ->
  (forall u, same_body (get_profile w u) (get_profile w' u)) ->
  journal_ranking.get_journal_categories w' jn
    = journal_ranking.get_journal_categories w jn /\
  ranking_app.get_journal_categories w' jn
    = ranking_app.get_journal_categories w jn.
Proof.
  intros Hs Hp.
  unfold journal_ranking.get_journal_categories,
    journal_ranking.get_journal_categories_body,
    ranking_app.get_journal_categories,
    ranking_app.get_journal_categories_body.
  specialize (Hs jn).
  destruct (get_search w jn) as [resp|e], (get_search w' jn) as [resp'|e'];
    cbn [same_body] in Hs; try contradiction; cbn [bind try_except];
    [|split; reflexivity].
  rewrite <- Hs. split.
  - destruct (journal_ranking.select_candidate (soup resp)) as [[jl rt]|e];
      cbn [bind try_except]; [|reflexivity].
    destruct (falsy jl); [reflexivity|].
    match goal with |- context [get_profile w ?u] =>
      specialize (Hp u);
      destruct (get_profile w u) as [presp|e],
               (get_profile w' u) as [presp'|e'] end;
      cbn [same_body] in Hp; try contradiction; cbn [bind try_except];
      [|reflexivity].
    rewrite Hp. reflexivity.
  - destruct (ranking_app.select_candidate jn (soup resp)) as [[jl rt]|e];
      cbn [bind try_except]; [|reflexivity].
    destruct (falsy jl); [reflexivity|].
    match goal with |- context [get_profile w ?u] =>
      specialize (Hp u);
      destruct (get_profile w u) as [presp|e],
               (get_profile w' u) as [presp'|e'] end;
      cbn [same_body] in Hp; try contradiction; cbn [bind try_except];
      [|reflexivity].
    rewrite Hp. reflexivity.
Qed.

(** C6, as amended. With the print calls taken to succeed, the failures
    that arise inside the [try] blocks give [None] in both scripts: a
    failed search request, a search page without results container or
    without candidate link, a first candidate without link target or
    title, a failed profile request, and, on the listing page the loop has
    reached, a failed request, a status other than 200 or a matching row
    without cells. [get_journal_categories] does not look at the status of
    its two answers: sites whose search and profile answers carry the same
    documents give the same result, whatever the status codes. *)
Theorem failures_inside_try_become_not_found (now_year : Z) (w : web)
    (journal_name category_id : string) (year : option string) :
  let tool_categories := journal_ranking.get_journal_categories w journal_name in
  let form_categories := ranking_app.get_journal_categories w journal_name in
  let tool_ranking :=
    journal_ranking.get_scimago_ranking w journal_name category_id year in
  let form_ranking :=
    ranking_app.get_scimago_ranking now_year w journal_name category_id year in
  (forall e, get_search w journal_name = Raise e ->
     tool_categories = Return None /\ form_categories = Return None) /\
  (forall resp, get_search w journal_name = Return resp ->
     search_results (soup resp) = [] \/
     (exists rest, search_results (soup resp) = [] :: rest) \/
     (exists a l rest, search_results (soup resp) = (a :: l) :: rest /\
                       (link_href a = None \/ jrnlname a = None)) ->
     tool_categories = Return None /\ form_categories = Return None) /\
  ((forall u, exists e, get_profile w u = Raise e) ->
     tool_categories = Return None /\ form_categories = Return None) /\
  (forall p, (1 <= p <= 100)%nat ->
     (forall q, (1 <= q < p)%nat ->
        unmatched_page w journal_name category_id year q) ->
     (exists e, get_listing w (listing_url category_id p year) = Raise e) \/
     (exists resp, get_listing w (listing_url category_id p year) = Return resp
                   /\ status_code resp <> 200%Z) \/
     (exists listing row, data_page w category_id year p listing /\
                          first_match journal_name (table_rows listing) row /\
                          cols row = []) ->
     tool_ranking = Return None /\ form_ranking = Return None) /\
  (forall w',
     (forall q, same_body (get_search w q) (get_search w' q)) ->
     (forall u, same_body (get_profile w u) (get_profile w' u)) ->
     journal_ranking.get_journal_categories w' journal_name = tool_categories /\
     ranking_app.get_journal_categories w' journal_name = form_categories).
Proof.
  intros tool_categories form_categories tool_ranking form_ranking.
  split; [|split; [|split; [|split]]].
  - intros e He. subst tool_categories form_categories.
    unfold journal_ranking.get_journal_categories,
      journal_ranking.get_journal_categories_body,
      ranking_app.get_journal_categories,
      ranking_app.get_journal_categories_body.
    rewrite He. split; reflexivity.
  - intros resp Hr Hcase. subst tool_categories form_categories.
    unfold journal_ranking.get_journal_categories,
      journal_ranking.get_journal_categories_body,
      ranking_app.get_journal_categories,
      ranking_app.get_journal_categories_body,
      journal_ranking.select_candidate, ranking_app.select_candidate.
    rewrite Hr. cbn [bind].
    destruct Hcase as [->|[(rest & ->)|(a & l & rest & -> & Ha)]].
    + split; reflexivity.
    + split; reflexivity.
    + cbn [bind ranking_app.candidate_loop].
      unfold getitem_href, jrnlname_text.
      destruct Ha as [Ha|Ha]; rewrite Ha.
      * split; reflexivity.
      * destruct (link_href a); split; reflexivity.
  - apply categories_without_profile.
  - intros p Hp Hq Hcase. subst tool_ranking form_ranking.
    apply (rankings_stopped w journal_name category_id year now_year p Hp Hq).
    destruct Hcase as [(e & He)|[(resp & Hr & Hs)|(listing & row & Hd & Hm & Hc)]].
    + unfold journal_ranking.try_body. rewrite He. reflexivity.
    + unfold journal_ranking.try_body. rewrite Hr. cbn [bind].
      apply Z.eqb_neq in Hs. rewrite Hs. reflexivity.
    + assert (Ht : exists t, title_tag row = Some t).
      { destruct Hm as (pre & post & _ & _ & Hrow). unfold matches in Hrow.
        destruct (title_tag row) as [t|]; [exists t; reflexivity|discriminate]. }
      destruct Ht as (t & Ht).
      rewrite (tool_try_body_match w journal_name category_id year p listing
                 row t Hd Hm Ht).
      unfold first_col. rewrite Hc. reflexivity.
  - intros w' Hs Hp. apply categories_same_body; assumption.
Qed.

(** With the site out of reach every operation returns [None]; and the
    sample site answering under the statuses 404 and 500 gives the
    categories it gives under 200. *)
Lemma failures_inside_try_become_not_found_witness :
  (journal_ranking.get_journal_categories Sample.offline "Nature"
     = Return None /\
   ranking_app.get_journal_categories Sample.offline "Nature"
     = Return None) /\
  (journal_ranking.get_scimago_ranking Sample.offline "Nature" "1000" None
     = Return None /\
   ranking_app.get_scimago_ranking 2026 Sample.offline "Nature" "1000" None
     = Return None) /\
  (journal_ranking.get_journal_categories site_with_error_status "nature"
     = journal_ranking.get_journal_categories Sample.site "nature" /\
   ranking_app.get_journal_categories site_with_error_status "nature"
     = ranking_app.get_journal_categories Sample.site "nature").
Proof.
  split; [|split].
  - destruct (failures_inside_try_become_not_found
                2026 Sample.offline "Nature" "1000" None) as (Hs & _).
    apply (Hs (RequestException "timed out")). reflexivity.
  - destruct (failures_inside_try_become_not_found
                2026 Sample.offline "Nature" "1000" None)
      as (_ & _ & _ & Hl & _).
    apply (Hl 1%nat).
    + lia.
    + intros q Hq. lia.
    + left. eexists. reflexivity.
  - destruct (failures_inside_try_become_not_found
                2026 Sample.site "nature" "1000" None)
      as (_ & _ & _ & _ & Hb).
    apply (Hb site_with_error_status); intros; reflexivity.
Defined.

(** C6 as stated fails. The search is answered under status 404 and the
    profile under status 500, with the documents of the sample site:
    [get_journal_categories] does not return [None], it returns the
    profile, in both scripts. *)
Lemma error_status_still_gives_a_profile :
  get_search site_with_error_status "nature"
    = Return {| status_code := 404; soup := Sample.nature_results |} /\
  get_profile site_with_error_status
      "https://www.scimagojr.com/journalsearch.php?q=1&tip=sid"
    = Return {| status_code := 500; soup := Sample.nature_profile |} /\
  journal_ranking.get_journal_categories site_with_error_status "nature"
    = Return (Some
        {| journal_ranking.journal := Some "Nature Physics";
           journal_ranking.categories :=
             [ {| name := "Multidisciplinary"; id := "1000" |};
               {| name := "Physics and Astronomy"; id := "3100" |} ];
           journal_ranking.url :=
             "https://www.scimagojr.com/journalsearch.php?q=1&tip=sid" |}) /\
  ranking_app.get_journal_categories site_with_error_status "nature"
    = Return (Some
        {| ranking_app.real_title := Some "Nature";
           ranking_app.Category :=
             ["Multidisciplinary"; "Physics and Astronomy"];
           ranking_app.ids := ["1000"; "3100"] |}).
Proof. repeat split; reflexivity. Qed.

(** * Further properties *)

(** ** Text and decimal numbers *)

Lemma string_app_inv_head s a b : s ++ a = s ++ b -> a = b.
Proof.
  induction s as [|c s IH]; simpl; [tauto|].
  intros [= H]. apply IH. assumption.
Qed.

Lemma string_app_length a b :
  String.length (a ++ b) = (String.length a + String.length b)%nat.
Proof. induction a as [|c a IH]; simpl; [reflexivity|]. rewrite IH. reflexivity. Qed.

Lemma string_app_inv_tail s a b : a ++ s = b ++ s -> a = b.
Proof.
  revert b. induction a as [|c a IH]; intros [|d b] H; simpl in H.
  - reflexivity.
  - apply (f_equal String.length) in H. simpl in H.
    rewrite string_app_length in H. lia.
  - apply (f_equal String.length) in H. simpl in H.
    rewrite string_app_length in H. lia.
  - injection H as -> H. f_equal. apply IH. assumption.
Qed.

Lemma startswith_app key x : Py.startswith key (key ++ x) = true.
Proof.
  induction key as [|c key IH]; simpl; [reflexivity|].
  rewrite Ascii.eqb_refl. assumption.
Qed.

Lemma substring_all s m :
  (String.length s <= m)%nat -> substring 0 m s = s.
Proof.
  revert m. induction s as [|c s IH]; intros [|m] H; simpl in *;
    try reflexivity; try lia.
  rewrite IH by lia. reflexivity.
Qed.

Lemma substring_after key x m :
  (String.length (key ++ x) <= m)%nat ->
  substring (String.length key) m (key ++ x) = x.
Proof.
  induction key as [|c key IH]; simpl; intros H.
  - apply substring_all. assumption.
  - apply IH. lia.
Qed.

Lemma after_literal_app lit x : after_literal lit (lit ++ x) = Some x.
Proof.
  unfold after_literal. rewrite startswith_app, substring_after; auto.
Qed.

Lemma digit_not_space c : Py.is_digit c = true -> Py.is_space c = false.
Proof.
  unfold Py.is_digit, Py.is_space. intros H.
  apply andb_true_iff in H. destruct H as [H1 H2].
  apply Nat.leb_le in H1. apply Nat.leb_le in H2.
  apply orb_false_iff. split; apply andb_false_iff.
  - right. apply Nat.leb_gt. lia.
  - right. apply Nat.leb_gt. lia.
Qed.

Lemma span_digits_all d rest :
  all_digits d = true -> no_leading_digit rest ->
  Py.span_digits (d ++ rest) = (d, rest).
Proof.
  intros Hd Hr. induction d as [|c d IH]; simpl in *; [assumption|].
  apply andb_true_iff in Hd. destruct Hd as [Hc Hd].
  rewrite Hc, IH by assumption. reflexivity.
Qed.

Lemma lstrip_spaces sp x : all_spaces sp = true -> Py.lstrip (sp ++ x) = Py.lstrip x.
Proof.
  induction sp as [|c sp IH]; simpl; [reflexivity|]. intros H.
  apply andb_true_iff in H. destruct H as [Hc Hs]. rewrite Hc. auto.
Qed.

Lemma lstrip_digit c r : Py.is_digit c = true -> Py.lstrip (String c r) = String c r.
Proof. intros H. simpl. rewrite (digit_not_space _ H). reflexivity. Qed.

Lemma uint_digits_value d acc :
  Py.int_of_digits_acc (Z.of_nat acc) (NilEmpty.string_of_uint d)
    = Z.of_nat (Nat.of_uint_acc d acc).
Proof.
  revert acc.
  induction d as [|d IH|d IH|d IH|d IH|d IH|d IH|d IH|d IH|d IH|d IH];
    intros acc;
    cbn [NilEmpty.string_of_uint Py.int_of_digits_acc Nat.of_uint_acc];
    [reflexivity|..]; rewrite <- IH; f_equal;
    rewrite ?Nat2Z.inj_succ, Nat.tail_mul_spec, Nat2Z.inj_mul;
    match goal with |- context [Py.digit_val ?c] =>
      let v := eval vm_compute in (Py.digit_val c) in
      change (Py.digit_val c) with v end;
    lia.
Qed.

Lemma uint_all_digits d : all_digits (NilEmpty.string_of_uint d) = true.
Proof. induction d; simpl; auto. Qed.

Lemma str_of_nat_uint n :
  Py.str_of_nat n = "0" /\ n = 0%nat \/
  exists c r, Py.str_of_nat n = String c r /\
              NilEmpty.string_of_uint (Nat.to_uint n) = String c r.
Proof.
  unfold Py.str_of_nat, NilZero.string_of_uint.
  destruct (Nat.to_uint n) eqn:E.
  - left. split; [reflexivity|].
    rewrite <- (DecimalNat.Unsigned.of_to n), E. reflexivity.
  - right; eexists; eexists; split; reflexivity.
  - right; eexists; eexists; split; reflexivity.
  - right; eexists; eexists; split; reflexivity.
  - right; eexists; eexists; split; reflexivity.
  - right; eexists; eexists; split; reflexivity.
  - right; eexists; eexists; split; reflexivity.
  - right; eexists; eexists; split; reflexivity.
  - right; eexists; eexists; split; reflexivity.
  - right; eexists; eexists; split; reflexivity.
  - right; eexists; eexists; split; reflexivity.
Qed.

(** [int(str(n)) == n] *)
Lemma int_of_str_of_nat n : Py.int_of_digits (Py.str_of_nat n) = Z.of_nat n.
Proof.
  destruct (str_of_nat_uint n) as [[-> ->]|(c & r & -> & E)]; [reflexivity|].
  rewrite <- E. unfold Py.int_of_digits.
  change 0%Z with (Z.of_nat 0). rewrite uint_digits_value.
  change (Nat.of_uint_acc (Nat.to_uint n) 0) with (Nat.of_uint (Nat.to_uint n)).
  rewrite DecimalNat.Unsigned.of_to. reflexivity.
Qed.

Lemma str_of_nat_all_digits n : all_digits (Py.str_of_nat n) = true.
Proof.
  destruct (str_of_nat_uint n) as [[-> _]|(c & r & -> & E)]; [reflexivity|].
  rewrite <- E. apply uint_all_digits.
Qed.

Lemma str_of_nat_nonempty n : exists c r, Py.str_of_nat n = String c r.
Proof.
  destruct (str_of_nat_uint n) as [[-> _]|(c & r & -> & _)]; eauto.
Qed.

Lemma str_of_nat_inj p q : Py.str_of_nat p = Py.str_of_nat q -> p = q.
Proof.
  intros H. apply Nat2Z.inj. rewrite <- !int_of_str_of_nat, H. reflexivity.
Qed.

(** ** More on the Total-Count Resolver *)

(** X1. A total that [get_total_journals] reports is positive, so the
    percentile never divides by zero: the total carried by a record of the
    command-line tool, when known, and the divisor of the percentile in a
    record of the interactive form are positive. *)
Theorem known_total_is_positive (now_year : Z) (w : web)
    (journal_name category_id : string) (year : option string) :
  (forall soup n, get_total_journals soup = Some n -> (0 < n)%Z) /\
  (forall r t,
     journal_ranking.get_scimago_ranking w journal_name category_id year
       = Return (Some r) ->
     journal_ranking.Number_journals r = Some t -> (0 < t)%Z) /\
  (forall r,
     ranking_app.get_scimago_ranking now_year w journal_name category_id year
       = Return (Some r) ->
     (0 < ranking_app.divisor (ranking_app.Percentile r))%Z).
Proof.
  assert (Htool : forall r t,
     journal_ranking.get_scimago_ranking w journal_name category_id year
       = Return (Some r) ->
     journal_ranking.Number_journals r = Some t -> (0 < t)%Z).
  { intros r t H Ht. apply tool_record_located in H.
    destruct H as (p & listing & row & _ & _ & _ & _ & _ & _ & _ & Hn & _).
    rewrite Hn in Ht. apply (get_total_journals_positive _ _ Ht). }
  split; [apply get_total_journals_positive|]. split; [assumption|].
  intros r' H.
  unfold ranking_app.get_scimago_ranking in H. rewrite form_run_tool in H.
  cbn [snd] in H.
  destruct (snd (journal_ranking.get_scimago_ranking_run
                   w journal_name category_id year)) as [[r|]|e] eqn:Hr;
    try discriminate.
  injection H as H.
  destruct (form_of_tool_inv _ _ _ _ _ _ H)
    as (_ & _ & _ & n & t & _ & Ht & ->).
  cbn [ranking_app.divisor]. apply (Htool r t); assumption.
Qed.

(** The sample pages: 1500 from [total_size=], 120 in both records. *)
Lemma known_total_is_positive_witness :
  (0 < 1500)%Z /\ (0 < 120)%Z /\ (0 < 120)%Z.
Proof.
  destruct (known_total_is_positive 2026 Sample.site "nature" "1000" None)
    as (H1 & H2 & H3).
  split; [|split].
  - apply (H1 Sample.page_1500_40). reflexivity.
  - apply (H2 {| journal_ranking.Journal := "Nature Physics";
                 journal_ranking.Rank := "2";
                 journal_ranking.Number_journals := Some 120%Z;
                 journal_ranking.Quartile := "Q2";
                 journal_ranking.Category_ID := "1000";
                 journal_ranking.Page_Found := 2 |}); reflexivity.
  - apply (H3 {| ranking_app.Journal := "Nature Physics";
                 ranking_app.Category_name := [" Physics"];
                 ranking_app.Category_Rank := "#2 of 120";
                 ranking_app.Percentile :=
                   {| ranking_app.dividend := 200;
                      ranking_app.divisor := 120 |};
                 ranking_app.Quartile := "Q2";
                 ranking_app.Year := ranking_app.YearGiven None |}).
    reflexivity.
Defined.

Lemma find_links_with_href_perm l l' :
  Permutation l l' ->
  Permutation (find_links_with_href l) (find_links_with_href l').
Proof.
  induction 1 as [|a l l' _ IH|a b l|l1 l2 l3 _ IH1 _ IH2]; simpl.
  - constructor.
  - destruct (href a); [constructor|]; assumption.
  - destruct (href a), (href b); try apply Permutation_refl.
    apply perm_swap.
  - eapply Permutation_trans; eassumption.
Qed.

Lemma param_values_perm key l l' :
  Permutation l l' ->
  Permutation (param_values key l) (param_values key l').
Proof.
  induction 1 as [|a l l' _ IH|a b l|l1 l2 l3 _ IH1 _ IH2]; simpl.
  - constructor.
  - destruct (Py.re_search_digits key a); [constructor|]; assumption.
  - destruct (Py.re_search_digits key a), (Py.re_search_digits key b);
      try apply Permutation_refl.
    apply perm_swap.
  - eapply Permutation_trans; eassumption.
Qed.

Lemma maximum_perm l l' : Permutation l l' -> maximum l = maximum l'.
Proof.
  induction 1 as [|a l l' _ IH|a b l|l1 l2 l3 _ IH1 _ IH2].
  - reflexivity.
  - rewrite !maximum_cons, IH. reflexivity.
  - rewrite !maximum_cons. lia.
  - congruence.
Qed.

(** X2. The total does not depend on the order in which the links occur on
    the page, nor on anything on the page but its links. *)
Theorem total_count_ignores_link_order (soup soup' : listing_page) :
  Permutation (links soup) (links soup') ->
  get_total_journals soup = get_total_journals soup'.
Proof.
  intros H. rewrite !get_total_journals_cases.
  unfold total_sizes, page_numbers.
  rewrite (maximum_perm _ _ (param_values_perm "total_size=" _ _
                               (find_links_with_href_perm _ _ H))).
  rewrite (maximum_perm _ _ (param_values_perm "page=" _ _
                               (find_links_with_href_perm _ _ H))).
  reflexivity.
Qed.

(** The links of the sample page, reversed, on a page with other rows. *)
Lemma total_count_ignores_link_order_witness :
  get_total_journals Sample.page_1500_40 =
  get_total_journals {| links := rev (links Sample.page_1500_40);
                        table_rows := [];
                        page_title := None |}.
Proof.
  apply total_count_ignores_link_order. apply Permutation_rev.
Defined.

(** ** More on the Category Resolver *)

(** X3. A profile returned by the command-line tool is that of the first
    candidate link: its title is that candidate's title, and its URL is the
    candidate's non-empty target, as it is when it starts with "http" and
    after "https://www.scimagojr.com/" otherwise; either way the URL
    starts with "http", and it is the URL that was requested. *)
Theorem tool_profile_is_first_candidate (w : web) (journal_name : string)
    (prof : journal_ranking.profile) :
  journal_ranking.get_journal_categories w journal_name = Return (Some prof) ->
  exists resp a others rest h t presp,
    get_search w journal_name = Return resp /\
    search_results (soup resp) = (a :: others) :: rest /\
    link_href a = Some h /\ h <> "" /\
    jrnlname a = Some t /\
    journal_ranking.journal prof = Some t /\
    journal_ranking.url prof =
      (if Py.startswith "http" h then h
       else "https://www.scimagojr.com/" ++ h) /\
    Py.startswith "http" (journal_ranking.url prof) = true /\
    get_profile w (journal_ranking.url prof) = Return presp.
Proof.
  unfold journal_ranking.get_journal_categories,
    journal_ranking.get_journal_categories_body, try_except,
    journal_ranking.select_candidate.
  intros H.
  destruct (get_search w journal_name) as [resp|e]; cbn [bind] in H;
    [|discriminate].
  destruct (search_results (soup resp)) as [|[|a others] rest] eqn:Hs;
    cbn [bind falsy] in H; try discriminate.
  unfold getitem_href, jrnlname_text in H.
  destruct (link_href a) as [h|] eqn:Hh; cbn [bind] in H; [|discriminate].
  destruct (jrnlname a) as [t|] eqn:Ht; cbn [bind] in H; [|discriminate].
  destruct (falsy (Some h)) eqn:Hf; [discriminate|]. cbv beta iota in H.
  assert (Hne : h <> "") by (intros ->; discriminate Hf).
  assert (Habs : Py.startswith "http"
                   (if Py.startswith "http" h then h
                    else "https://www.scimagojr.com/" ++ h) = true).
  { destruct (Py.startswith "http" h) eqn:E; [assumption|reflexivity]. }
  set (u := if Py.startswith "http" h then h
            else "https://www.scimagojr.com/" ++ h) in *.
  destruct (get_profile w u) as [presp|e] eqn:Hp; cbn [bind] in H;
    [|discriminate].
  injection H as <-. cbn [journal_ranking.url journal_ranking.journal].
  exists resp, a, others, rest, h, t, presp. auto 10.
Qed.

(** The sample site, whose first candidate has a relative target. *)
Lemma tool_profile_is_first_candidate_witness :
  exists resp a others rest h t presp,
    get_search Sample.site "Nature" = Return resp /\
    search_results (soup resp) = (a :: others) :: rest /\
    link_href a = Some h /\ h <> "" /\
    jrnlname a = Some t /\
    Some "Nature Physics" = Some t /\
    "https://www.scimagojr.com/journalsearch.php?q=1&tip=sid" =
      (if Py.startswith "http" h then h
       else "https://www.scimagojr.com/" ++ h) /\
    Py.startswith "http"
      "https://www.scimagojr.com/journalsearch.php?q=1&tip=sid" = true /\
    get_profile Sample.site
      "https://www.scimagojr.com/journalsearch.php?q=1&tip=sid" = Return presp.
Proof.
  apply (tool_profile_is_first_candidate Sample.site "Nature"
           {| journal_ranking.journal := Some "Nature Physics";
              journal_ranking.categories :=
                [ {| name := "Multidisciplinary"; id := "1000" |};
                  {| name := "Physics and Astronomy"; id := "3100" |} ];
              journal_ranking.url :=
                "https://www.scimagojr.com/journalsearch.php?q=1&tip=sid" |}).
  reflexivity.
Defined.

Lemma candidate_loop_picks jn cs : forall jl rt jl' rt',
  ranking_app.candidate_loop jn cs jl rt = Return (jl', rt') ->
  (jl' = jl /\ rt' = rt) \/
  exists a h t,
    In a cs /\ link_href a = Some h /\ jrnlname a = Some t /\
    jl' = Some h /\ rt' = Some t.
Proof.
  induction cs as [|b cs IH]; intros jl rt jl' rt'; simpl.
  - intros [= <- <-]. left. auto.
  - unfold getitem_href, jrnlname_text.
    destruct (link_href b) as [h|] eqn:Hh; cbn [bind]; [|discriminate].
    destruct (jrnlname b) as [t|] eqn:Ht; cbn [bind]; [|discriminate].
    destruct (String.eqb (Py.lower t) (Py.lower jn)).
    + intros [= <- <-]. right. exists b, h, t. auto.
    + intros H. destruct (IH _ _ _ _ H) as [[-> ->]|(a & h' & t' & Ha & Hrest)].
      * right. exists b, h, t. auto.
      * right. exists a, h', t'. split; [right; assumption|assumption].
Qed.

(** X4. A profile returned by the interactive form has two columns of the
    same length, no category id twice, and the title of one of the
    candidates of the first results container, one that carries a link
    target. *)
Theorem form_profile_columns (w : web) (journal_name : string)
    (prof : ranking_app.profile) :
  ranking_app.get_journal_categories w journal_name = Return (Some prof) ->
  List.length (ranking_app.Category prof)
    = List.length (ranking_app.ids prof) /\
  NoDup (ranking_app.ids prof) /\
  exists resp cs rest a h t,
    get_search w journal_name = Return resp /\
    search_results (soup resp) = cs :: rest /\
    In a cs /\ link_href a = Some h /\ h <> "" /\ jrnlname a = Some t /\
    ranking_app.real_title prof = Some t.
Proof.
  unfold ranking_app.get_journal_categories,
    ranking_app.get_journal_categories_body, try_except,
    ranking_app.select_candidate.
  intros H.
  destruct (get_search w journal_name) as [resp|e]; cbn [bind] in H;
    [|discriminate].
  destruct (search_results (soup resp)) as [|cs rest] eqn:Hs;
    cbn [bind] in H; [discriminate|].
  destruct (ranking_app.candidate_loop journal_name cs None None)
    as [[jl rt]|e] eqn:Hl; cbn [bind] in H; [|discriminate].
  destruct (falsy jl) eqn:Hf; [discriminate|].
  match type of H with context [get_profile w ?u] =>
    destruct (get_profile w u) as [presp|e] end;
    cbn [bind] in H; [|discriminate].
  injection H as <-.
  cbn [ranking_app.Category ranking_app.ids ranking_app.real_title].
  split; [rewrite !length_map; reflexivity|]. split.
  - apply (fill_category_map_deduplicated
             (find_category_links (profile_links (soup presp)))).
  - destruct (candidate_loop_picks _ _ _ _ _ _ Hl)
      as [[-> _]|(a & h & t & Ha & Hh & Ht & -> & ->)]; [discriminate|].
    exists resp, cs, rest, a, h, t. repeat split; try assumption.
    intros ->. discriminate.
Qed.

(** The sample site: two categories, the candidate "Nature". *)
Lemma form_profile_columns_witness :
  List.length ["Multidisciplinary"; "Physics and Astronomy"]
    = List.length ["1000"; "3100"] /\
  NoDup ["1000"; "3100"] /\
  exists resp cs rest a h t,
    get_search Sample.site "nature" = Return resp /\
    search_results (soup resp) = cs :: rest /\
    In a cs /\ link_href a = Some h /\ h <> "" /\ jrnlname a = Some t /\
    Some "Nature" = Some t.
Proof.
  apply (form_profile_columns Sample.site "nature"
           {| ranking_app.real_title := Some "Nature";
              ranking_app.Category :=
                ["Multidisciplinary"; "Physics and Astronomy"];
              ranking_app.ids := ["1000"; "3100"] |}).
  reflexivity.
Defined.

Lemma candidate_loop_exact_or_last jn d cs :
  Forall well_formed cs -> forall jl rt,
  ranking_app.candidate_loop jn cs jl rt =
  match find (title_equals jn) cs with
  | Some a => Return (link_href a, jrnlname a)
  | None =>
      match cs with
      | [] => Return (jl, rt)
      | _ => Return (link_href (last cs d), jrnlname (last cs d))
      end
  end.
Proof.
  induction 1 as [|b cs [Hh Ht] _ IH]; intros jl rt; [reflexivity|].
  cbn [ranking_app.candidate_loop find]. unfold title_equals at 1.
  unfold getitem_href, jrnlname_text.
  destruct (link_href b) as [h|] eqn:Eh; [|congruence].
  destruct (jrnlname b) as [t|] eqn:Et; [|congruence].
  cbn [bind]. destruct (String.eqb (Py.lower t) (Py.lower jn)).
  - rewrite Eh, Et. reflexivity.
  - rewrite IH. destruct (find (title_equals jn) cs); [reflexivity|].
    destruct cs as [|c cs]; [|reflexivity].
    cbn [last]. rewrite Eh, Et. reflexivity.
Qed.

(** X5. With candidates that all carry a link target and a display title,
    the interactive form selects the first candidate whose title equals the
    query case-insensitively, and the last candidate of the container when
    there is none. *)
Theorem form_selects_exact_or_last (journal_name : string)
    (soup : search_page) (cs : list result_link)
    (rest : list (list result_link)) :
  search_results soup = cs :: rest ->
  Forall well_formed cs ->
  cs <> [] ->
  let chosen :=
    match find (title_equals journal_name) cs with
    | Some a => a
    | None => last cs {| link_href := None; jrnlname := None |}
    end in
  ranking_app.select_candidate journal_name soup
    = Return (link_href chosen, jrnlname chosen).
Proof.
  intros Hs Hwf Hne chosen. unfold ranking_app.select_candidate.
  rewrite Hs. cbn [bind].
  rewrite (candidate_loop_exact_or_last journal_name
             {| link_href := None; jrnlname := None |} cs Hwf).
  subst chosen. destruct (find (title_equals journal_name) cs);
    [reflexivity|].
  destruct cs; [congruence|reflexivity].
Qed.

(** The sample results: "nature" selects "Nature", "natur" selects the
    last candidate, "Nature Materials". *)
Lemma form_selects_exact_or_last_witness :
  ranking_app.select_candidate "nature" Sample.nature_results
    = Return (Some "journalsearch.php?q=2&tip=sid", Some "Nature") /\
  ranking_app.select_candidate "natur" Sample.nature_results
    = Return (Some "journalsearch.php?q=3&tip=sid", Some "Nature Materials").
Proof.
  split.
  - apply (form_selects_exact_or_last "nature" Sample.nature_results _ []
             eq_refl).
    + repeat constructor; simpl; discriminate.
    + discriminate.
  - apply (form_selects_exact_or_last "natur" Sample.nature_results _ []
             eq_refl).
    + repeat constructor; simpl; discriminate.
    + discriminate.
Defined.

(** ** More on the Ranking Locator *)

Lemma tool_scan_rows_lower jn jn' cid page nj rows :
  Py.lower jn = Py.lower jn' ->
  journal_ranking.scan_rows jn cid page nj rows
    = journal_ranking.scan_rows jn' cid page nj rows.
Proof.
  intros H. induction rows as [|x rows IH]; simpl; [reflexivity|].
  rewrite H, IH. reflexivity.
Qed.

Lemma tool_try_body_lower w jn jn' cid y page :
  Py.lower jn = Py.lower jn' ->
  journal_ranking.try_body w jn cid y page
    = journal_ranking.try_body w jn' cid y page.
Proof.
  intros H. unfold journal_ranking.try_body.
  destruct (get_listing w (listing_url cid page y)) as [resp|e];
    cbn [bind]; [|reflexivity].
  rewrite (tool_scan_rows_lower jn jn' _ _ _ _ H). reflexivity.
Qed.

Lemma tool_pagination_lower w jn jn' cid y k : forall page,
  Py.lower jn = Py.lower jn' ->
  (101 - page <= k)%nat ->
  journal_ranking.pagination w jn cid y page
    = journal_ranking.pagination w jn' cid y page.
Proof.
  induction k as [|k IH]; intros page H Hk;
    rewrite (tool_pagination_unfold w jn), (tool_pagination_unfold w jn'),
      (tool_try_body_lower w jn jn' cid y page H);
    destruct (try_except _ _) as [[r| |]|e]; try reflexivity;
    destruct (Nat.leb_spec (page + 1) 100) as [Hle|Hgt];
    try reflexivity; try lia.
  rewrite (IH (page + 1)%nat H) by lia. reflexivity.
Qed.

(** X6. The locator does not see the case of the query: two journal names
    that agree once lowered give the same requests and the same result, in
    both scripts. *)
Theorem query_case_is_ignored (now_year : Z) (w : web)
    (journal_name journal_name' category_id : string)
    (year : option string) :
  Py.lower journal_name = Py.lower journal_name' ->
  journal_ranking.get_scimago_ranking_run w journal_name category_id year
    = journal_ranking.get_scimago_ranking_run w journal_name' category_id
        year /\
  ranking_app.get_scimago_ranking_run now_year w journal_name category_id year
    = ranking_app.get_scimago_ranking_run now_year w journal_name'
        category_id year.
Proof.
  intros H.
  assert (Ht : journal_ranking.get_scimago_ranking_run w journal_name
                 category_id year
               = journal_ranking.get_scimago_ranking_run w journal_name'
                   category_id year).
  { apply (tool_pagination_lower w journal_name journal_name' category_id
             year 100 1 H). lia. }
  split; [assumption|]. rewrite !form_run_tool, Ht. reflexivity.
Qed.

(** "NATURE" and "nature" on the sample site. *)
Lemma query_case_is_ignored_witness :
  journal_ranking.get_scimago_ranking_run Sample.site "NATURE" "1000" None
    = journal_ranking.get_scimago_ranking_run Sample.site "nature" "1000"
        None /\
  ranking_app.get_scimago_ranking_run 2026 Sample.site "NATURE" "1000" None
    = ranking_app.get_scimago_ranking_run 2026 Sample.site "nature" "1000"
        None.
Proof.
  apply (query_case_is_ignored 2026 Sample.site "NATURE" "nature" "1000" None).
  reflexivity.
Defined.

Lemma contains_empty s : Py.contains "" s = true.
Proof. destruct s; reflexivity. Qed.

(** X7. The empty journal name matches every row that has a title link:
    when page 1 holds data, the command-line tool returns the first such
    row of page 1, after one request. *)
Theorem empty_query_takes_first_titled_row (w : web) (category_id : string)
    (year : option string) (listing : listing_page)
    (pre post : list table_row) (row : table_row) (t rank : string) :
  data_page w category_id year 1 listing ->
  table_rows listing = (pre ++ row :: post)%list ->
  Forall (fun x => title_tag x = None) pre ->
  title_tag row = Some t ->
  first_col row = Return rank ->
  journal_ranking.get_scimago_ranking_run w "" category_id year =
  ([listing_url category_id 1 year],
   Return (Some {| journal_ranking.Journal := t;
                   journal_ranking.Rank := rank;
                   journal_ranking.Number_journals :=
                     get_total_journals listing;
                   journal_ranking.Quartile := quartile_of row;
                   journal_ranking.Category_ID := category_id;
                   journal_ranking.Page_Found := 1 |})).
Proof.
  intros Hd Hrows Hpre Ht Hc.
  apply (tool_run_match w "" category_id year 1 listing row t rank);
    try assumption; try lia.
  exists pre, post. split; [assumption|]. split.
  - eapply Forall_impl; [|exact Hpre].
    intros x Hx. unfold matches. rewrite Hx. reflexivity.
  - unfold matches. rewrite Ht. apply contains_empty.
Qed.

(** Category 1000 of the sample site: the header has no title link, the
    row "Science" is the first that has one. *)
Lemma empty_query_takes_first_titled_row_witness :
  journal_ranking.get_scimago_ranking_run Sample.site "" "1000" None =
  ([listing_url "1000" 1 None],
   Return (Some {| journal_ranking.Journal := "Science";
                   journal_ranking.Rank := "1";
                   journal_ranking.Number_journals := Some 120%Z;
                   journal_ranking.Quartile := "Q1";
                   journal_ranking.Category_ID := "1000";
                   journal_ranking.Page_Found := 1 |})).
Proof.
  apply (empty_query_takes_first_titled_row Sample.site "1000" None
           (Sample.listing [Sample.header; Sample.row "Science" "1" ["q1"]])
           [Sample.header] [] (Sample.row "Science" "1" ["q1"])
           "Science" "1").
  - apply sample_data_page; [reflexivity|simpl; lia].
  - reflexivity.
  - repeat constructor.
  - reflexivity.
  - reflexivity.
Defined.

Lemma urls_last cid y n :
  last (urls cid y 1 (S n)) "" = listing_url cid (S n) y.
Proof.
  rewrite <- urls_snoc. rewrite last_last. reflexivity.
Qed.

(** X8. In a record of the command-line tool, "Page Found" is the number
    of pages requested, between 1 and 100; the last request is the URL of
    that page, and "Category ID" is the category asked for. *)
Theorem page_found_counts_requests (w : web)
    (journal_name category_id : string) (year : option string)
    (r : journal_ranking.ranking) :
  journal_ranking.get_scimago_ranking w journal_name category_id year
    = Return (Some r) ->
  let requests :=
    fst (journal_ranking.get_scimago_ranking_run w journal_name category_id
           year) in
  journal_ranking.Page_Found r = List.length requests /\
  (1 <= journal_ranking.Page_Found r <= 100)%nat /\
  last requests "" =
    listing_url category_id (journal_ranking.Page_Found r) year /\
  journal_ranking.Category_ID r = category_id.
Proof.
  intros H. cbv zeta. unfold journal_ranking.get_scimago_ranking in H.
  destruct (tool_run_shape w journal_name category_id year)
    as (n & Hn & Hu & _ & Hr).
  rewrite H in Hr. apply tool_try_body_inv in Hr.
  destruct Hr as (listing & row & _ & _ & _ & _ & _ & _ & Hc & Hp).
  rewrite Hu, urls_length, Hp.
  split; [reflexivity|]. split; [assumption|]. split; [|assumption].
  destruct n as [|n]; [lia|]. apply urls_last.
Qed.

(** The sample site, query "nature": found on page 2 after two requests. *)
Lemma page_found_counts_requests_witness :
  2%nat = List.length
            (fst (journal_ranking.get_scimago_ranking_run
                    Sample.site "nature" "1000" None)) /\
  (1 <= 2 <= 100)%nat /\
  last (fst (journal_ranking.get_scimago_ranking_run
               Sample.site "nature" "1000" None)) ""
    = listing_url "1000" 2 None /\
  "1000" = "1000".
Proof.
  apply (page_found_counts_requests Sample.site "nature" "1000" None
           {| journal_ranking.Journal := "Nature Physics";
              journal_ranking.Rank := "2";
              journal_ranking.Number_journals := Some 120%Z;
              journal_ranking.Quartile := "Q2";
              journal_ranking.Category_ID := "1000";
              journal_ranking.Page_Found := 2 |}).
  reflexivity.
Defined.

Lemma listing_url_inj cid y p q :
  listing_url cid p y = listing_url cid q y -> p = q.
Proof.
  unfold listing_url. intros H.
  do 4 apply string_app_inv_head in H.
  apply string_app_inv_tail in H. apply str_of_nat_inj. assumption.
Qed.

Lemma urls_NoDup cid y a n : NoDup (urls cid y a n).
Proof.
  unfold urls. apply Finite.Injective_map_NoDup; [|apply seq_NoDup].
  intros p q. apply listing_url_inj.
Qed.

(** X9. No URL is requested twice in a run, in either script: the pages of
    a run have different URLs. *)
Theorem no_page_is_requested_twice (now_year : Z) (w : web)
    (journal_name category_id : string) (year : option string) :
  NoDup (fst (journal_ranking.get_scimago_ranking_run w journal_name
                category_id year)) /\
  NoDup (fst (ranking_app.get_scimago_ranking_run now_year w journal_name
                category_id year)).
Proof.
  destruct (tool_run_shape w journal_name category_id year)
    as (n & _ & Hu & _).
  rewrite form_run_tool. cbn [fst]. rewrite Hu.
  split; apply urls_NoDup.
Qed.

(** ** The category name *)

Lemma remove_all_absent old s :
  Py.contains old s = false -> Py.remove_all_from old 0 s = s.
Proof.
  induction s as [|c r IH]; cbn [Py.contains Py.remove_all_from];
    [reflexivity|].
  intros H. apply orb_false_iff in H. destruct H as [H1 H2].
  rewrite H1, IH by assumption. reflexivity.
Qed.

Lemma remove_all_from_skip old p rest : forall k,
  Py.remove_all_from old (String.length p + k) (p ++ rest)
    = Py.remove_all_from old k rest.
Proof.
  induction p as [|c p IH]; intros k; [reflexivity|]. simpl. apply IH.
Qed.

Lemma remove_all_prefix c p rest :
  Py.remove_all (String c p) (String c p ++ rest)
    = Py.remove_all (String c p) rest.
Proof.
  unfold Py.remove_all.
  change (String c p ++ rest) with (String c (p ++ rest)).
  cbn [Py.remove_all_from].
  change (String c (p ++ rest)) with (String c p ++ rest).
  rewrite startswith_app.
  replace (String.length (String c p) - 1)%nat with (String.length p + 0)%nat
    by (simpl; lia).
  apply remove_all_from_skip.
Qed.

(** X10. [get_category_name] gives the empty text for a page without
    title, the title itself when it does not contain "Journal Rankings
    on", and, for a title that starts with that phrase and does not
    contain it again, what follows the phrase, leading space included. *)
Theorem category_name_from_title (soup : listing_page) :
  (page_title soup = None -> ranking_app.get_category_name soup = "") /\
  (forall t, page_title soup = Some t ->
     Py.contains "Journal Rankings on" t = false ->
     ranking_app.get_category_name soup = t) /\
  (forall rest, page_title soup = Some ("Journal Rankings on" ++ rest) ->
     Py.contains "Journal Rankings on" rest = false ->
     ranking_app.get_category_name soup = rest).
Proof.
  unfold ranking_app.get_category_name. split; [|split].
  - intros ->. reflexivity.
  - intros t -> H. apply remove_all_absent. assumption.
  - intros rest -> H. rewrite remove_all_prefix.
    apply remove_all_absent. assumption.
Qed.

(** The title of the sample listing: the name keeps its leading space. *)
Lemma category_name_from_title_witness :
  ranking_app.get_category_name Sample.page_0_40 = "" /\
  ranking_app.get_category_name
    {| links := []; table_rows := []; page_title := Some "SJR" |} = "SJR" /\
  ranking_app.get_category_name (Sample.listing []) = " Physics".
Proof.
  split; [|split].
  - apply (proj1 (category_name_from_title Sample.page_0_40)). reflexivity.
  - apply (proj1 (proj2 (category_name_from_title
             {| links := []; table_rows := []; page_title := Some "SJR" |})));
      reflexivity.
  - apply (proj2 (proj2 (category_name_from_title (Sample.listing []))));
      reflexivity.
Defined.

(** ** The page of the interactive form *)

Lemma name_given_true j_name : j_name <> "" -> name_given j_name = true.
Proof. destruct j_name; [congruence|reflexivity]. Qed.

(** X11. With a journal name typed in, pressing "Get Categories" raises
    [TypeError] exactly when [get_journal_categories] returns [None]: the
    script unpacks the result into two variables. When a profile is
    returned, the page shows the heading and the table of categories. *)
Theorem get_categories_button_unpacks_the_result (now_year : Z) (w : web)
    (j_name j_cate j_year : string) :
  j_name <> "" ->
  (ranking_app.get_journal_categories w j_name = Return None <->
   page_run now_year w j_name j_cate j_year (Some GetCategories)
     = Raise TypeError) /\
  (forall prof,
     ranking_app.get_journal_categories w j_name = Return (Some prof) ->
     page_run now_year w j_name j_cate j_year (Some GetCategories)
       = Return [ShowingCategoriesFor (ranking_app.real_title prof);
                 CategoriesTable (ranking_app.Category prof)
                                 (ranking_app.ids prof)]).
Proof.
  intros Hn. unfold page_run. rewrite (name_given_true _ Hn).
  destruct (try_except_returns
              (ranking_app.get_journal_categories_body w j_name))
    as (r & Hr).
  change (ranking_app.get_journal_categories w j_name = Return r) in Hr.
  rewrite Hr. cbn [bind]. destruct r as [prof|]; cbn [bind].
  - split; [split; discriminate|]. intros prof' [= <-]. reflexivity.
  - split; [split; reflexivity|]. intros prof'. discriminate.
Qed.

(** With the site out of reach the button raises; on the sample site it
    shows the categories of "Nature". *)
Lemma get_categories_button_unpacks_the_result_witness :
  page_run 2026 Sample.offline "nature" "" "" (Some GetCategories)
    = Raise TypeError /\
  page_run 2026 Sample.site "nature" "" "" (Some GetCategories)
    = Return [ShowingCategoriesFor (Some "Nature");
              CategoriesTable ["Multidisciplinary"; "Physics and Astronomy"]
                              ["1000"; "3100"]].
Proof.
  split.
  - apply (proj1 (get_categories_button_unpacks_the_result
                    2026 Sample.offline "nature" "" "" ltac:(discriminate))).
    reflexivity.
  - apply (proj2 (get_categories_button_unpacks_the_result
                    2026 Sample.site "nature" "" "" ltac:(discriminate))
             {| ranking_app.real_title := Some "Nature";
                ranking_app.Category :=
                  ["Multidisciplinary"; "Physics and Astronomy"];
                ranking_app.ids := ["1000"; "3100"] |}).
    reflexivity.
Defined.

(** ** The command line *)




(** ** The former Total-Count Resolver *)

Lemma old_pattern_search_here s d :
  old_pattern_here s = Some d -> old_pattern_search s = Some d.
Proof. intros H. destruct s; cbn [old_pattern_search]; rewrite H; reflexivity. Qed.

Lemma lstrip_str_of_nat n rest :
  Py.lstrip (Py.str_of_nat n ++ rest) = Py.str_of_nat n ++ rest.
Proof.
  pose proof (str_of_nat_all_digits n) as Hd.
  destruct (str_of_nat_nonempty n) as (c & r & E). rewrite E in *.
  simpl in Hd. apply andb_true_iff in Hd. destruct Hd as [Hc _].
  apply (lstrip_digit c (r ++ rest) Hc).
Qed.

(** X14. [get_total_journal_old] reads the total off a range line
    "1 - hi of n" with a two-digit upper bound, whatever the spaces
    between its parts, when the line opens the text and no digit follows
    the total. *)
Theorem old_total_reads_range_line (sp1 sp2 sp3 sp4 : string) (a b : ascii)
    (n : nat) (rest : string) :
  all_spaces sp1 = true -> all_spaces sp2 = true ->
  all_spaces sp3 = true -> all_spaces sp4 = true ->
  Py.is_digit a = true -> Py.is_digit b = true ->
  no_leading_digit rest ->
  get_total_journal_old
    ("1" ++ sp1 ++ "-" ++ sp2 ++
     String a (String b (sp3 ++ "of" ++ sp4 ++ Py.str_of_nat n ++ rest)))
    = Some (Z.of_nat n).
Proof.
  intros H1 H2 H3 H4 Ha Hb Hr. unfold get_total_journal_old.
  rewrite (old_pattern_search_here _ (Py.str_of_nat n)).
  - rewrite int_of_str_of_nat. reflexivity.
  - unfold old_pattern_here.
    rewrite after_literal_app, (lstrip_spaces sp1) by assumption.
    change (Py.lstrip ("-" ++ ?x)) with ("-" ++ x).
    rewrite after_literal_app, (lstrip_spaces sp2) by assumption.
    rewrite (lstrip_digit a _ Ha). cbn [after_two_digits]. rewrite Ha, Hb.
    cbn [andb]. rewrite (lstrip_spaces sp3) by assumption.
    change (Py.lstrip ("of" ++ ?x)) with ("of" ++ x).
    rewrite after_literal_app, (lstrip_spaces sp4) by assumption.
    rewrite lstrip_str_of_nat.
    rewrite (span_digits_all _ _ (str_of_nat_all_digits n) Hr). cbn [fst].
    destruct (str_of_nat_nonempty n) as (c & r & ->). reflexivity.
Qed.

(** "1 - 50 of 2300 journals", and the same without spaces. *)
Lemma old_total_reads_range_line_witness :
  get_total_journal_old "1 - 50 of 2300 journals" = Some 2300%Z /\
  get_total_journal_old "1-50of2300" = Some 2300%Z.
Proof.
  split.
  - apply (old_total_reads_range_line " " " " " " " " "5" "0" 2300
             " journals"); reflexivity.
  - apply (old_total_reads_range_line "" "" "" "" "5" "0" 2300 "");
      reflexivity.
Defined.

(** ** The listing URL, read back *)

Lemma re_search_skip key c s :
  Py.startswith key (String c s) = false ->
  Py.re_search_digits key (String c s) = Py.re_search_digits key s.
Proof. intros H. cbn [Py.re_search_digits]. rewrite H. reflexivity. Qed.

Lemma re_search_at key d rest :
  all_digits d = true -> d <> "" -> no_leading_digit rest ->
  Py.re_search_digits key (key ++ d ++ rest) = Some d.
Proof.
  intros Hd Hne Hr.
  assert (Hhere :
    (if Py.startswith key (key ++ d ++ rest)
     then match fst (Py.span_digits
                       (substring (String.length key)
                          (String.length (key ++ d ++ rest))
                          (key ++ d ++ rest))) with
          | EmptyString => None
          | x => Some x
          end
     else None) = Some d).
  { rewrite startswith_app, substring_after by auto.
    rewrite (span_digits_all _ _ Hd Hr). cbn [fst].
    destruct d; [congruence|reflexivity]. }
  destruct (key ++ d ++ rest); cbn [Py.re_search_digits];
    rewrite Hhere; reflexivity.
Qed.

Lemma re_search_skip_digits k key d s :
  Py.is_digit k = false -> all_digits d = true ->
  Py.re_search_digits (String k key) (d ++ s)
    = Py.re_search_digits (String k key) s.
Proof.
  intros Hk Hd. induction d as [|c d IH]; [reflexivity|].
  simpl in Hd. apply andb_true_iff in Hd. destruct Hd as [Hc Hd].
  change (String c d ++ s) with (String c (d ++ s)).
  rewrite re_search_skip; [apply IH; assumption|].
  cbn [Py.startswith]. destruct (Ascii.eqb_spec k c) as [->|_];
    [congruence|reflexivity].
Qed.

Lemma year_param_no_digit (year : option string) :
  no_leading_digit
    match year with
    | Some (String c r) => "&year=" ++ String c r
    | _ => ""
    end.
Proof. destruct year as [[|c r]|]; reflexivity. Qed.

(** X15. With a category id made of digits, the listing URL that the
    locator builds gives back that id to the search for [category=(\d+)]
    of the Category Resolver, and its page number to the search for
    [page=(\d+)] of the Total-Count Resolver. *)
Theorem listing_url_reads_back (category_id : string) (page : nat)
    (year : option string) :
  all_digits category_id = true ->
  category_id <> "" ->
  cat_id_of (listing_url category_id page year) = category_id /\
  param_values "page=" [listing_url category_id page year]
    = [Z.of_nat page].
Proof.
  intros Hd Hne. split.
  - unfold cat_id_of, listing_url. cbn [append].
    repeat (rewrite re_search_skip by reflexivity).
    match goal with |- context [Py.re_search_digits _ ?s] =>
      change s with ("category=" ++ category_id ++ "&page="
                       ++ Py.str_of_nat page
                       ++ match year with
                          | Some (String c r) => "&year=" ++ String c r
                          | _ => ""
                          end) end.
    rewrite re_search_at; [reflexivity|assumption|assumption|reflexivity].
  - cbn [param_values]. unfold listing_url. cbn [append].
    repeat (rewrite re_search_skip by reflexivity).
    rewrite (re_search_skip_digits "p" "age=" category_id)
      by (reflexivity || assumption).
    cbn [append]. rewrite re_search_skip by reflexivity.
    match goal with |- context [Py.re_search_digits _ ?s] =>
      change s with ("page=" ++ Py.str_of_nat page
                       ++ match year with
                          | Some (String c r) => "&year=" ++ String c r
                          | _ => ""
                          end) end.
    rewrite re_search_at.
    + rewrite int_of_str_of_nat. reflexivity.
    + apply str_of_nat_all_digits.
    + destruct (str_of_nat_nonempty page) as (c & r & ->). discriminate.
    + apply year_param_no_digit.
Qed.

(** Category 1702, page 12, year 2018. *)
Lemma listing_url_reads_back_witness :
  cat_id_of (listing_url "1702" 12 (Some "2018")) = "1702" /\
  param_values "page=" [listing_url "1702" 12 (Some "2018")] = [12%Z].
Proof.
  apply (listing_url_reads_back "1702" 12 (Some "2018")).
  - reflexivity.
  - discriminate.
Defined.

(** ** More on the records of the interactive form *)

(** X16. A record of the interactive form names the category by the title
    of the page on which the row was found, as a one-element list, and
    carries under "Year" the current year when the year argument is the
    empty text and the argument itself otherwise. *)
Theorem form_record_category_and_year (now_year : Z) (w : web)
    (journal_name category_id : string) (year : option string)
    (r : ranking_app.ranking) :
  ranking_app.get_scimago_ranking now_year w journal_name category_id year
    = Return (Some r) ->
  (exists p resp,
     (1 <= p <= 100)%nat /\
     p = List.length
           (fst (ranking_app.get_scimago_ranking_run now_year w journal_name
                   category_id year)) /\
     get_listing w (listing_url category_id p year) = Return resp /\
     ranking_app.Category_name r
       = [ranking_app.get_category_name (soup resp)]) /\
  ranking_app.Year r =
    match year with
    | Some EmptyString => ranking_app.YearNow now_year
    | _ => ranking_app.YearGiven year
    end.
Proof.
  unfold ranking_app.get_scimago_ranking. rewrite form_run_tool.
  cbn [fst snd]. intros H.
  destruct (tool_run_shape w journal_name category_id year)
    as (n & Hn & Hu & _ & Hr).
  destruct (snd (journal_ranking.get_scimago_ranking_run
                   w journal_name category_id year)) as [[r0|]|e];
    try discriminate.
  injection H as H. apply tool_try_body_inv in Hr.
  destruct Hr as (listing & row & _ & _ & _ & _ & _ & _ & _ & Hp).
  unfold form_of_tool in H. rewrite Hp in H.
  destruct (get_listing w (listing_url category_id n year)) as [resp|e]
    eqn:Hg; [|discriminate].
  destruct (ranking_app.percentile_of _ _) as [pc|e]; [|discriminate].
  injection H as <-. cbn [ranking_app.Category_name ranking_app.Year].
  split; [|reflexivity].
  exists n, resp. rewrite Hu, urls_length. auto.
Qed.

(** The sample site, query "nature", year left empty in the form. *)
Lemma form_record_category_and_year_witness :
  (exists p resp,
     (1 <= p <= 100)%nat /\
     p = List.length
           (fst (ranking_app.get_scimago_ranking_run 2026 Sample.site "nature"
                   "1000" (Some ""))) /\
     get_listing Sample.site (listing_url "1000" p (Some "")) = Return resp /\
     [" Physics"] = [ranking_app.get_category_name (soup resp)]) /\
  ranking_app.YearNow 2026 = ranking_app.YearNow 2026.
Proof.
  apply (form_record_category_and_year 2026 Sample.site "nature" "1000"
           (Some "")
           {| ranking_app.Journal := "Nature Physics";
              ranking_app.Category_name := [" Physics"];
              ranking_app.Category_Rank := "#2 of 120";
              ranking_app.Percentile :=
                {| ranking_app.dividend := 200;
                   ranking_app.divisor := 120 |};
              ranking_app.Quartile := "Q2";
              ranking_app.Year := ranking_app.YearNow 2026 |}).
  reflexivity.
Defined.

(** ** What a run depends on *)

Lemma tool_try_body_same_answer w w' jn cid y page :
  get_listing w (listing_url cid page y)
    = get_listing w' (listing_url cid page y) ->
  journal_ranking.try_body w jn cid y page
    = journal_ranking.try_body w' jn cid y page.
Proof. intros H. unfold journal_ranking.try_body. rewrite H. reflexivity. Qed.

Lemma tool_pagination_first_request w jn cid y page :
  In (listing_url cid page y)
     (fst (journal_ranking.pagination w jn cid y page)).
Proof.
  rewrite tool_pagination_unfold.
  destruct (try_except _ _) as [[r| |]|e]; cbn [fst]; try (left; reflexivity).
  destruct (page + 1 <=? 100)%nat; left; reflexivity.
Qed.

Lemma tool_pagination_same_answers w w' jn cid y k : forall page,
  (101 - page <= k)%nat ->
  (forall u, In u (fst (journal_ranking.pagination w jn cid y page)) ->
     get_listing w u = get_listing w' u) ->
  journal_ranking.pagination w jn cid y page
    = journal_ranking.pagination w' jn cid y page.
Proof.
  induction k as [|k IH]; intros page Hk Hsame;
    pose proof (Hsame _ (tool_pagination_first_request w jn cid y page))
      as Hfirst;
    rewrite (tool_pagination_unfold w) in Hsame;
    rewrite (tool_pagination_unfold w), (tool_pagination_unfold w'),
      <- (tool_try_body_same_answer w w' jn cid y page Hfirst);
    destruct (try_except _ _) as [[r| |]|e]; try reflexivity;
    destruct (Nat.leb_spec (page + 1) 100) as [Hle|Hgt];
    try reflexivity; try lia.
  cbn [fst] in Hsame.
  rewrite (IH (page + 1)%nat); [reflexivity|lia|].
  intros u Hu. apply Hsame. right. assumption.
Qed.

(** X17. A run of the locator depends on the site only through the answers
    to the listing URLs it requests: a second site that answers those URLs
    alike gives the same requests and the same result, in both scripts. *)
Theorem run_depends_on_requested_pages_only (now_year : Z) (w w' : web)
    (journal_name category_id : string) (year : option string) :
  (forall u,
     In u (fst (journal_ranking.get_scimago_ranking_run w journal_name
                  category_id year)) ->
     get_listing w u = get_listing w' u) ->
  journal_ranking.get_scimago_ranking_run w journal_name category_id year
    = journal_ranking.get_scimago_ranking_run w' journal_name category_id
        year /\
  ranking_app.get_scimago_ranking_run now_year w journal_name category_id year
    = ranking_app.get_scimago_ranking_run now_year w' journal_name
        category_id year.
Proof.
  intros Hsame.
  assert (Ht : journal_ranking.get_scimago_ranking_run w journal_name
                 category_id year
               = journal_ranking.get_scimago_ranking_run w' journal_name
                   category_id year).
  { apply (tool_pagination_same_answers w w' journal_name category_id year
             100 1); [lia|assumption]. }
  split; [assumption|].
  rewrite !form_run_tool, <- Ht.
  destruct (tool_run_shape w journal_name category_id year)
    as (n & Hn & Hu & _ & Hr).
  destruct (snd (journal_ranking.get_scimago_ranking_run
                   w journal_name category_id year)) as [[r|]|e];
    try reflexivity.
  apply tool_try_body_inv in Hr.
  destruct Hr as (listing & row & _ & _ & _ & _ & _ & _ & _ & Hp).
  do 2 f_equal. unfold form_of_tool. rewrite Hp.
  rewrite (Hsame (listing_url category_id n year)); [reflexivity|].
  rewrite Hu. destruct n as [|n]; [lia|].
  rewrite <- urls_snoc. apply in_or_app. right. left. reflexivity.
Qed.

(** The sample site and a copy of it whose search and profile requests
    fail: same run for "nature". *)
Lemma run_depends_on_requested_pages_only_witness :
  journal_ranking.get_scimago_ranking_run Sample.site "nature" "1000" None
    = journal_ranking.get_scimago_ranking_run
        {| get_search := get_search Sample.offline;
           get_profile := get_profile Sample.offline;
           get_listing := Sample.listing_of |} "nature" "1000" None /\
  ranking_app.get_scimago_ranking_run 2026 Sample.site "nature" "1000" None
    = ranking_app.get_scimago_ranking_run 2026
        {| get_search := get_search Sample.offline;
           get_profile := get_profile Sample.offline;
           get_listing := Sample.listing_of |} "nature" "1000" None.
Proof.
  apply (run_depends_on_requested_pages_only 2026 Sample.site).
  intros u _. reflexivity.
Defined.
